(** * botlist.space API client: the Client facade and the Bot wrapper

    A shallow embedding of [lib/Client.js] (the facade: one operation per
    endpoint) and of [lib/Structures/Bot.js] (the Bot wrapper), with the
    properties of the specification stated over it.

    Layout:
    - [JS]         values of the language, property reads, comparisons;
    - [Collection] the ordered map the wrappers are stored in;
    - [Structures] User, Upvote, Statistics, Pagination and Bot;
    - [Http]       requests, responses, promises;
    - [Client]     the operations of the facade;
    - the properties. *)

From Stdlib Require Import List String Ascii Bool Arith ZArith QArith Lia.
From Stdlib Require Import DecimalString DecimalNat.
Import ListNotations.

Local Open Scope string_scope.
Local Open Scope list_scope.

(* ================================================================= *)
(** ** The values the client handles *)

Module JS.

(** A number of the language is an IEEE double.  The client never computes
    with the numbers it is given: it compares them ([page < 1],
    [i < xs.length]) and uses them as keys.  A number is therefore modelled
    by the value it denotes: NaN, an infinity, or a rational (every finite
    double is one; [+0] and [-0] are both [0], which neither [<] nor the key
    comparison of a Map tells apart). *)
Inductive Number : Type :=
| NaN
| Infinity (negative : bool)
| Finite (q : Q).

Definition Qltb (x y : Q) : bool := negb (Qle_bool y x).

(** [a < b] on two numbers: false as soon as one of them is NaN. *)
Definition num_ltb (a b : Number) : bool :=
  match a, b with
  | NaN, _ | _, NaN => false
  | Infinity true, Infinity true => false
  | Infinity true, _ => true
  | _, Infinity true => false
  | Infinity false, _ => false
  | Finite _, Infinity false => true
  | Finite x, Finite y => Qltb x y
  end.

(** SameValueZero on numbers, the comparison a Map applies to its keys. *)
Definition num_same (a b : Number) : bool :=
  match a, b with
  | NaN, NaN => true
  | Infinity s, Infinity t => Bool.eqb s t
  | Finite x, Finite y => Qeq_bool x y
  | _, _ => false
  end.

Definition of_nat (n : nat) : Number := Finite (inject_Z (Z.of_nat n)).

(** [Number.isInteger] *)
Definition isInteger (a : Number) : bool :=
  match a with
  | Finite q => Pos.eqb (Qden (Qred q)) 1
  | _ => false
  end.

(** A decoded JSON document, or [undefined] (what reading a property that
    is not there gives, and what an omitted argument is).  An object is the
    list of its own properties; a decoded object holds each name once. *)
#[local] Unset Elimination Schemes.
Inductive Value : Type :=
| Undefined
| Null
| Bool (b : bool)
| Num (n : Number)
| Str (s : string)
| Arr (elements : list Value)
| Obj (properties : list (string * Value)).
#[local] Set Elimination Schemes.

Definition typeof (v : Value) : string :=
  match v with
  | Undefined => "undefined"
  | Bool _ => "boolean"
  | Num _ => "number"
  | Str _ => "string"
  | Null | Arr _ | Obj _ => "object"
  end.

(** [Array.isArray] *)
Definition isArray (v : Value) : bool :=
  match v with Arr _ => true | _ => false end.

(** [isObject] of Client.js: [!Array.isArray(obj) && obj === Object(obj)]. *)
Definition isObject (v : Value) : bool :=
  negb (isArray v) && match v with Arr _ | Obj _ => true | _ => false end.

(** What is thrown or what a promise is rejected with. *)
Inductive Error : Type :=
| TypeError (message : string)
| SyntaxError (message : string)
| NativeTypeError                      (* raised by the engine: a property of undefined or null is read *)
| TransportError (status : Z) (message : string)   (* what a failed request is rejected with *)
| HTTPError (cause : Error).

(** The outcome of evaluating a piece of code. *)
Inductive completion (A : Type) : Type :=
| Normal (a : A)
| Throw (e : Error).
Arguments Normal {A} a.
Arguments Throw {A} e.

(** Evaluation.  [None] marks what the embedding does not cover: a
    comparison that needs the engine's conversion of a string or of an
    object to a number, and a loop that outruns its fuel. *)
Definition M (A : Type) : Type := option (completion A).

Definition ret {A} (a : A) : M A := Some (Normal a).
Definition throw {A} (e : Error) : M A := Some (Throw e).
Definition bind {A B} (m : M A) (k : A -> M B) : M B :=
  match m with
  | Some (Normal a) => k a
  | Some (Throw e) => Some (Throw e)
  | None => None
  end.

Fixpoint lookup (name : string) (ps : list (string * Value)) : option Value :=
  match ps with
  | [] => None
  | (k, v) :: ps' => if String.eqb k name then Some v else lookup name ps'
  end.

Definition field (ps : list (string * Value)) (name : string) : Value :=
  match lookup name ps with Some v => v | None => Undefined end.

(** [v.name] for the names the client reads ([id], [owners], [length],
    ...), none of which an object, an array or a string inherits. *)
Definition get_prop (v : Value) (name : string) : M Value :=
  match v with
  | Undefined | Null => throw NativeTypeError
  | Bool _ | Num _ => ret Undefined
  | Str s => if String.eqb name "length" then ret (Num (of_nat (String.length s)))
             else ret Undefined
  | Arr l => if String.eqb name "length" then ret (Num (of_nat (List.length l)))
             else ret Undefined
  | Obj ps => ret (field ps name)
  end.

(** The property name a loop counter is turned into: its decimal writing. *)
Definition index_name (i : nat) : string :=
  NilEmpty.string_of_uint (Nat.to_uint i).

(** [v[i]] for a loop counter [i]. *)
Definition get_index (v : Value) (i : nat) : M Value :=
  match v with
  | Undefined | Null => throw NativeTypeError
  | Bool _ | Num _ => ret Undefined
  | Str s => match String.get i s with
             | Some c => ret (Str (String c EmptyString))
             | None => ret Undefined
             end
  | Arr l => match nth_error l i with
             | Some x => ret x
             | None => ret Undefined
             end
  | Obj ps => ret (field ps (index_name i))
  end.

(** [i < v] for a loop counter [i]: [v] is converted to a number first
    ([undefined] to NaN, [null] to 0, a boolean to 0 or 1).  Converting a
    string, an array or an object is not modelled. *)
Definition lt_index (i : nat) (v : Value) : M bool :=
  match v with
  | Undefined => ret false
  | Null => ret (num_ltb (of_nat i) (of_nat 0))
  | Bool b => ret (num_ltb (of_nat i) (of_nat (if b then 1 else 0)))
  | Num n => ret (num_ltb (of_nat i) n)
  | Str _ | Arr _ | Obj _ => None
  end.

(** ToBoolean, and [a || b]. *)
Definition truthy (v : Value) : bool :=
  match v with
  | Undefined | Null => false
  | Bool b => b
  | Num NaN => false
  | Num (Infinity _) => true
  | Num (Finite q) => negb (Qeq_bool q 0)
  | Str s => negb (String.eqb s "")
  | Arr _ | Obj _ => true
  end.

Definition or_else (a b : Value) : Value := if truthy a then a else b.

(** A parameter with a default, [f(x = d)]: the default applies when the
    argument is omitted or is [undefined]. *)
Definition default_arg (arg d : Value) : Value :=
  match arg with Undefined => d | _ => arg end.

(** SameValueZero, the comparison of the keys of a Map.  Primitive values
    are compared by what they are; an array or an object is compared by
    identity, and two arrays or objects found at two places of a decoded
    document are never the same one. *)
Definition same_key (a b : Value) : bool :=
  match a, b with
  | Undefined, Undefined => true
  | Null, Null => true
  | Bool x, Bool y => Bool.eqb x y
  | Num x, Num y => num_same x y
  | Str x, Str y => String.eqb x y
  | _, _ => false
  end.

(** [for (let i = start; cond(i); i++) body(i)], the state of the loop
    threaded through [body].  [fuel] bounds the number of times the
    condition is evaluated. *)
Fixpoint for_loop {S : Type} (fuel : nat) (cond : nat -> M bool)
         (body : nat -> S -> M S) (i : nat) (s : S) : M S :=
  match fuel with
  | O => None
  | Datatypes.S fuel' =>
      bind (cond i) (fun continue =>
        if continue
        then bind (body i s) (fun s' => for_loop fuel' cond body (Datatypes.S i) s')
        else ret s)
  end.

(** The number of elements, characters or properties of a value. *)
Definition size (v : Value) : nat :=
  match v with
  | Str s => String.length s
  | Arr l => List.length l
  | Obj ps => List.length ps
  | _ => 0
  end.



(** TimeClip: the time value of a Date, in milliseconds; NaN is the
    invalid date. *)
Definition TimeClip (time : Number) : Number :=
  match time with
  | Finite q =>
      if Qle_bool (-8640000000000000) q && Qle_bool q 8640000000000000
      then Finite (inject_Z (Z.quot (Qnum q) (Zpos (Qden q))))
      else NaN
  | _ => NaN
  end.

(** A Date is its time value. *)
Record Date : Type := mkDate { getTime : Number }.

(** [new Date(value)] for one argument: a number is clipped; [undefined]
    is NaN, [null] is 0, a boolean is 0 or 1.  A string is parsed as a
    date, which is not modelled, and so is what an array or an object is
    turned into. *)
Definition new_Date (value : Value) : M Date :=
  match value with
  | Undefined => ret (mkDate NaN)
  | Null => ret (mkDate (TimeClip (of_nat 0)))
  | Bool b => ret (mkDate (TimeClip (of_nat (if b then 1 else 0))))
  | Num n => ret (mkDate (TimeClip n))
  | Str _ | Arr _ | Obj _ => None
  end.



End JS.

Declare Scope js_scope.
Delimit Scope js_scope with js.
Notation "x <- m ;; k" := (JS.bind m (fun x => k))
  (at level 61, m at next level, right associativity) : js_scope.
Local Open Scope js_scope.

(* ================================================================= *)
(** ** Collection *)

Module Collection.

(** Modelled from the spec: the ordered map of lib/Structures/Collection.js,
    which is not among the sources.  Spec 3 and 4.1: a mapping with unique
    keys that keeps the order of insertion; [set] inserts or overwrites, and
    on overwrite the entry keeps the place it had; [get] answers not-found
    without throwing; [has] is the membership test; [delete] removes the
    entry if it is there; [array] and [keyArray] give the values and the
    keys in order. *)
Definition t (V : Type) : Type := list (JS.Value * V).

Section Operations.
Context {V : Type}.

Definition empty : t V := [].

Fixpoint set (k : JS.Value) (v : V) (c : t V) : t V :=
  match c with
  | [] => [(k, v)]
  | (k', v') :: c' =>
      if JS.same_key k' k then (k', v) :: c' else (k', v') :: set k v c'
  end.

Fixpoint get (k : JS.Value) (c : t V) : option V :=
  match c with
  | [] => None
  | (k', v') :: c' => if JS.same_key k' k then Some v' else get k c'
  end.

Definition has (k : JS.Value) (c : t V) : bool :=
  match get k c with Some _ => true | None => false end.

Fixpoint delete (k : JS.Value) (c : t V) : t V :=
  match c with
  | [] => []
  | (k', v') :: c' =>
      if JS.same_key k' k then c' else (k', v') :: delete k c'
  end.

Definition array (c : t V) : list V := map snd c.
Definition keyArray (c : t V) : list JS.Value := map fst c.
Definition size (c : t V) : nat := List.length c.
End Operations.

End Collection.

(* ================================================================= *)
(** ** The wrappers *)

Module Structures.
Import JS.

(** Modelled from the spec: what the constructors of the wrappers that are
    not among the sources (User, Upvote, Statistics) do with the raw value.
    Spec 4.3: building a wrapper does no I/O and copies the fields of the
    raw object; a field it lacks passes through as undefined.  Reading the
    fields of [undefined] or [null] is what throws. *)
Definition read_fields (raw : Value) : M unit :=
  match raw with
  | Undefined | Null => throw NativeTypeError
  | _ => ret tt
  end.

(** Modelled from the spec: the User wrapper of lib/Structures/User.js,
    which is not among the sources.  Spec 4.3 and glossary: a read-only
    view over the raw JSON object it is built from. *)
Record User : Type := mkUser { user_raw : Value }.

Definition new_User (user : Value) : M User :=
  _ <- read_fields user;;
  ret (mkUser user).

(** Modelled from the spec: the Upvote wrapper of lib/Structures/Upvote.js,
    which is not among the sources; a view over the raw upvote. *)
Record Upvote : Type := mkUpvote { upvote_raw : Value }.

Definition new_Upvote (upvote : Value) : M Upvote :=
  _ <- read_fields upvote;;
  ret (mkUpvote upvote).

(** Modelled from the spec: the Statistics wrapper of
    lib/Structures/Statistics.js, which is not among the sources; a view
    over the raw site statistics. *)
Record Statistics : Type := mkStatistics { statistics_raw : Value }.

Definition new_Statistics (statistics : Value) : M Statistics :=
  _ <- read_fields statistics;;
  ret (mkStatistics statistics).

(** Modelled from the spec: the Pagination of lib/Structures/Pagination.js,
    which is not among the sources.  Spec 3 and 4.2: an ordered map that
    also carries the metadata of the page, read from the response envelope
    it is built from; it starts empty and the client fills it with [set]. *)
Record Pagination (V : Type) : Type := mkPagination {
  envelope : Value;
  entries : Collection.t V
}.
Arguments mkPagination {V} _ _.
Arguments envelope {V} _.
Arguments entries {V} _.

Definition new_Pagination {V} (body : Value) : Pagination V :=
  mkPagination body Collection.empty.

Definition Pagination_set {V} (k : Value) (v : V) (p : Pagination V) : Pagination V :=
  mkPagination (envelope p) (Collection.set k v (entries p)).

Definition Pagination_has {V} (k : Value) (p : Pagination V) : bool :=
  Collection.has k (entries p).

Definition Pagination_array {V} (p : Pagination V) : list V :=
  Collection.array (entries p).

Definition Pagination_keyArray {V} (p : Pagination V) : list Value :=
  Collection.keyArray (entries p).

(** *** lib/Structures/Bot.js *)

Record Bot : Type := mkBot {
  id : Value;
  username : Value;
  discriminator : Value;
  shortDescription : Value;
  fullDescription : Value;
  avatarURL : Value;
  invite : Value;
  avatarChildFriendly : Value;
  library : Value;
  prefix : Value;
  owners : Collection.t User;
  vanity : Value;
  links : Value;
  createdAt : Value;
  updatedAt : Value
}.

(** The loop of the constructor:
    [for (let i = 0; i < bot.owners.length; i++)
       this.owners.set(bot.owners[i].id, new User(bot.owners[i]));] *)
Definition Bot_owners_within (fuel : nat) (bot : Value) : M (Collection.t User) :=
  for_loop fuel
    (fun i =>
       bot_owners <- get_prop bot "owners";;
       len <- get_prop bot_owners "length";;
       lt_index i len)
    (fun i this_owners =>
       bot_owners <- get_prop bot "owners";;
       owner <- get_index bot_owners i;;
       key <- get_prop owner "id";;
       bot_owners' <- get_prop bot "owners";;
       owner' <- get_index bot_owners' i;;
       user <- new_User owner';;
       ret (Collection.set key user this_owners))
    0 Collection.empty.

(** What [v.name] is when reading it does not throw. *)
Definition peek (v : Value) (name : string) : Value :=
  match get_prop v name with
  | Some (Normal x) => x
  | _ => Undefined
  end.

(** The loop stops at the first index [bot.owners] does not hold: the
    size of [bot.owners] bounds its turns ([Bot_owners_fuel] below). *)
Definition Bot_owners (bot : Value) : M (Collection.t User) :=
  Bot_owners_within (S (size (peek bot "owners"))) bot.

Definition new_Bot (bot : Value) : M Bot :=
  this_id <- get_prop bot "id";;
  this_username <- get_prop bot "username";;
  this_discriminator <- get_prop bot "discriminator";;
  this_shortDescription <- get_prop bot "short_description";;
  this_fullDescription <- get_prop bot "full_description";;
  this_avatarURL <- get_prop bot "avatar";;
  this_invite <- get_prop bot "invite";;
  this_avatarChildFriendly <- get_prop bot "avatarChildFriendly";;
  this_library <- get_prop bot "library";;
  this_prefix <- get_prop bot "prefix";;
  this_owners <- Bot_owners bot;;
  this_vanity <- get_prop bot "vanity";;
  this_links <- get_prop bot "links";;
  this_createdAt <- get_prop bot "created_at";;
  this_updatedAt <- get_prop bot "updated_at";;
  ret (mkBot this_id this_username this_discriminator this_shortDescription
             this_fullDescription this_avatarURL this_invite
             this_avatarChildFriendly this_library this_prefix this_owners
             this_vanity this_links this_createdAt this_updatedAt).

Definition getID (b : Bot) : Value := id b.
Definition getUsername (b : Bot) : Value := username b.
Definition getDiscriminator (b : Bot) : Value := discriminator b.
Definition getOwners (b : Bot) : Collection.t User := owners b.
Definition isNSFW (b : Bot) : bool := negb (truthy (avatarChildFriendly b)).



Definition getShortDescription (b : Bot) : Value := shortDescription b.
Definition getFullDescription (b : Bot) : Value := fullDescription b.
Definition getAvatarURL (b : Bot) : Value := avatarURL b.
Definition getInvite (b : Bot) : Value := invite b.
Definition getPrefix (b : Bot) : Value := prefix b.
Definition getVanity (b : Bot) : Value := vanity b.
Definition getLinks (b : Bot) : Value := links b.
Definition getCreatedAt (b : Bot) : M Date := new_Date (createdAt b).
Definition getUpdatedAt (b : Bot) : M Date := new_Date (updatedAt b).

End Structures.

(* ================================================================= *)
(** ** Requests and promises *)

Module Http.
Import JS.

Inductive Method : Type := GET | POST.

(** What snekfetch is asked to send. *)
Record Request : Type := mkRequest {
  method : Method;
  url : string;
  query : list (string * Value);
  headers : list (string * string);
  sent : option Value
}.

(** What comes back: the decoded body of a 2xx answer, or a failure of the
    transport (the network, or a status outside 2xx). *)
Inductive Response : Type :=
| Success (body : Value)
| Failure (status : Z) (message : string).

Inductive Settled (A : Type) : Type :=
| Resolved (a : A)
| Rejected (e : Error).
Arguments Resolved {A} a.
Arguments Rejected {A} e.

(** A promise of the client: the request that was issued when it was
    made, if any, and how it settles once the response is there ([None]
    where the evaluation of a callback is not covered, see [JS.M]). *)
Record Promise (A : Type) : Type := mkPromise {
  issued : option Request;
  settle : Response -> option (Settled A)
}.
Arguments mkPromise {A} _ _.
Arguments issued {A} _.
Arguments settle {A} _ _.

(** What calling an operation does: it throws, or it returns a promise. *)
Inductive Call (A : Type) : Type :=
| Thrown (e : Error)
| Returned (p : Promise A).
Arguments Thrown {A} e.
Arguments Returned {A} p.

(** The promise snekfetch gives for a request: resolved with the result
    (of which the client reads the body only), rejected with the error of
    the transport. *)
Definition snekfetch (r : Request) : Promise Value :=
  mkPromise (Some r)
    (fun response =>
       match response with
       | Success body => Some (Resolved body)
       | Failure status message => Some (Rejected (TransportError status message))
       end).

(** [reject(reason, ...)]: the promise is rejected with the first argument;
    what is passed beyond the parameters of a function is ignored. *)
Definition reject (reason : Error) (ignored : list Error) : Error := reason.

(** [new Promise((resolve, reject) => p.then(onResult).catch(onError))]
    where [onResult] ends in [resolve(x)], [x] being what it is given here
    to return, and [onError] is [error => reject(onError error)].  What
    [onResult] throws reaches [onError] too. *)
Definition then_catch {A B} (p : Promise A) (onResult : A -> M B)
           (onError : Error -> Error) : Promise B :=
  mkPromise (issued p)
    (fun response =>
       match settle p response with
       | Some (Resolved a) =>
           match onResult a with
           | Some (Normal b) => Some (Resolved b)
           | Some (Throw e) => Some (Rejected (onError e))
           | None => None
           end
       | Some (Rejected e) => Some (Rejected (onError e))
       | None => None
       end).

(** The request a call has issued by the time it returns. *)
Definition request_of {A} (c : Call A) : option Request :=
  match c with
  | Thrown _ => None
  | Returned p => issued p
  end.

(** What the promise of a call settles to for a given response. *)
Definition outcome {A} (c : Call A) (response : Response) : option (Settled A) :=
  match c with
  | Thrown _ => None
  | Returned p => settle p response
  end.

Definition throws {A} (c : Call A) : bool :=
  match c with Thrown _ => true | Returned _ => false end.

End Http.

(* ================================================================= *)
(** ** lib/Client.js *)

Module Client.
Import JS Structures Http.

(** The options a client is made with, once the constructor has checked
    them: [id] and [botToken] are strings, [userToken] is a string when
    present. *)
Record Options : Type := mkOptions {
  id : string;
  userToken : option string;
  botToken : string
}.

Record t : Type := mkClient {
  _baseURL : string;
  _options : Options
}.

(** ['name' in obj] for a decoded object. *)
Definition has_property (name : string) (v : Value) : bool :=
  match v with
  | Obj ps => match lookup name ps with Some _ => true | None => false end
  | _ => false
  end.

Definition new_Client (options : Value) : M t :=
  if negb (isObject options) then throw (TypeError "Options must be an object")
  else
    options_id <- get_prop options "id";;
    match options_id with
    | Str the_id =>
        the_userToken <-
          (if has_property "userToken" options
           then options_userToken <- get_prop options "userToken";;
                match options_userToken with
                | Str s => ret (Some s)
                | _ => throw (TypeError "User token in options object must be a string")
                end
           else ret None);;
        options_botToken <- get_prop options "botToken";;
        match options_botToken with
        | Str the_botToken =>
            ret (mkClient "https://api.botlist.space/v1"
                          (mkOptions the_id the_userToken the_botToken))
        | _ => throw (TypeError "Bot token in options object must be a string")
        end
    | _ => throw (TypeError "ID in options object must be a string")
    end.

Definition one : Number := of_nat 1.

(** The loop that fills a pagination from a response body, as getAllBots,
    getUpvotes and getUserBots have it ([items] is [bots] or [upvotes],
    [wrap] is [new Bot] or [new Upvote]):
    [for (let i = 0; i < result.body.items.length; i++)
       pagination.set(result.body[i].id, wrap(result.body.items[i]));]
    The key is read from [result.body[i]], the item from
    [result.body.items[i]]. *)
Definition fill_within {V} (fuel : nat) (items : string) (wrap : Value -> M V)
           (result_body : Value) : M (Pagination V) :=
  for_loop fuel
    (fun i =>
       xs <- get_prop result_body items;;
       len <- get_prop xs "length";;
       lt_index i len)
    (fun i pagination =>
       entry <- get_index result_body i;;
       key <- get_prop entry "id";;
       xs <- get_prop result_body items;;
       raw <- get_index xs i;;
       wrapped <- wrap raw;;
       ret (Pagination_set key wrapped pagination))
    0 (new_Pagination result_body).

(** The loop stops at the first index [result.body] does not hold: the
    size of [result.body] bounds its turns ([fill_fuel] below). *)
Definition fill {V} (items : string) (wrap : Value -> M V) (result_body : Value)
  : M (Pagination V) :=
  fill_within (S (size result_body)) items wrap result_body.

Definition getStatistics (c : t) : Call Statistics :=
  Returned
    (then_catch
       (snekfetch (mkRequest GET (_baseURL c ++ "/statistics") [] [] None))
       (fun result_body => new_Statistics result_body)
       (fun error => reject error [HTTPError error])).

Definition getAllBots (c : t) (page_arg : Value) : Call (Pagination Bot) :=
  let page := default_arg page_arg (Num one) in
  match page with
  | Num n =>
      if num_ltb n one
      then Thrown (SyntaxError "Page must be a number greater than 0.")
      else Returned
             (then_catch
                (snekfetch (mkRequest GET (_baseURL c ++ "/bots")
                                      [("page", page)] [] None))
                (fun result_body => fill "bots" new_Bot result_body)
                (fun error => reject (HTTPError error) []))
  | _ => Thrown (TypeError "Page must be a number")
  end.

Definition getBot (c : t) (id_arg : Value) : Call Bot :=
  match id_arg with
  | Str the_id =>
      Returned
        (then_catch
           (snekfetch (mkRequest GET (_baseURL c ++ "/bots/" ++ the_id) [] [] None))
           (fun result_body => new_Bot result_body)
           (fun error => reject (HTTPError error) []))
  | _ => Thrown (TypeError "ID must be a string")
  end.

Definition getUpvotes (c : t) (page_arg : Value) : Call (Pagination Upvote) :=
  let page := default_arg page_arg (Num one) in
  match page with
  | Num _ =>
      Returned
        (then_catch
           (snekfetch (mkRequest GET
                         (_baseURL c ++ "/bots/" ++ id (_options c) ++ "/upvotes")
                         [("page", page)]
                         [("Authorization", botToken (_options c))] None))
           (fun result_body => fill "upvotes" new_Upvote result_body)
           (fun error => reject (HTTPError error) []))
  | _ => Thrown (TypeError "Page must be a number.")
  end.

(** [this.getUpvotes()] is called inside the executor of the promise:
    were it to throw, the promise would be rejected with what it threw. *)
Definition hasUpvoted (c : t) (userID : Value) : Call bool :=
  match userID with
  | Str _ =>
      Returned
        match getUpvotes c Undefined with
        | Thrown e => mkPromise None (fun _ => Some (Rejected e))
        | Returned upvotes =>
            then_catch upvotes
              (fun pagination => ret (Pagination_has userID pagination))
              (fun error => reject error [])
        end
  | _ => Thrown (TypeError "User ID must be a string")
  end.

Definition getSelfBot (c : t) : Call Bot :=
  getBot c (Str (id (_options c))).

Definition postServerCount (c : t) (count : Value) : Call Value :=
  if negb (String.eqb (typeof count) "number") && negb (isArray count)
  then Thrown (TypeError "Server count is not a number nor shards array")
  else
    let data := if isArray count then Obj [("shards", count)]
                else Obj [("server_count", count)] in
    Returned
      (then_catch
         (snekfetch (mkRequest POST (_baseURL c ++ "/bots/" ++ id (_options c)) []
                               [("Authorization", botToken (_options c))]
                               (Some data)))
         (fun _ => ret Undefined)
         (fun error => reject (HTTPError error) [])).

Definition getUser (c : t) (id_arg : Value) : Call User :=
  match id_arg with
  | Str the_id =>
      Returned
        (then_catch
           (snekfetch (mkRequest GET (_baseURL c ++ "/users/" ++ the_id) [] [] None))
           (fun result_body => new_User result_body)
           (fun error => reject (HTTPError error) []))
  | _ => Thrown (TypeError "User ID must be a string")
  end.

Definition getUserBots (c : t) (id_arg page_arg : Value) : Call (Pagination Bot) :=
  let page := default_arg page_arg (Num one) in
  match id_arg with
  | Str the_id =>
      match page with
      | Num n =>
          if num_ltb n one
          then Thrown (SyntaxError "Page must be a number greater than 0.")
          else Returned
                 (then_catch
                    (snekfetch (mkRequest GET
                                  (_baseURL c ++ "/users/" ++ the_id ++ "/bots")
                                  [("page", or_else page (Str "1"))] [] None))
                    (fun result_body => fill "bots" new_Bot result_body)
                    (fun error => reject (HTTPError error) []))
      | _ => Thrown (TypeError "Page must be a number")
      end
  | _ => Thrown (TypeError "User ID must be a string")
  end.

End Client.

(* ================================================================= *)
(** ** What the properties are stated with *)

Module Spec.
Import JS Structures Http Client.
Local Open Scope nat_scope.

(** A value whose properties can be read. *)
Definition is_defined (v : Value) : bool :=
  match v with
  | Undefined | Null => false
  | _ => true
  end.

(** What [this.owners.set(owner.id, new User(owner))] makes of the owners
    collected so far, for a raw owner that is neither undefined nor null. *)
Definition add_owner (acc : Collection.t User) (owner : Value) : Collection.t User :=
  Collection.set (peek owner "id") (mkUser owner) acc.

Definition zero : Number := of_nat 0.

(** "An integer greater than or equal to 1". *)
Definition is_page (v : Value) : bool :=
  match v with
  | Num (Finite q) => isInteger (Finite q) && Qle_bool 1 q
  | _ => false
  end.

(** [getSelfBot] in the words of the specification: [getBot] called with
    the id of the options the client was made with. *)
Definition getBot_of_configured_id (options : Value) (c : Client.t) : M (Call Bot) :=
  configured_id <- get_prop options "id";;
  ret (getBot c configured_id).

(** The loop cannot go past turn [j]: its condition does not hold there,
    or its body does not complete. *)
Definition stops_at {S} (cond : nat -> M bool) (body : nat -> S -> M S) (j : nat)
  : Prop :=
  forall s s', cond j = ret true -> body j s <> ret s'.

(** A server: what it answers to each request.  [run] lets it answer the
    request a call has issued. *)
Definition Server : Type := Request -> Response.

Definition run {A} (server : Server) (call : Call A) : option (Settled A) :=
  match request_of call with
  | Some r => outcome call (server r)
  | None => None
  end.

(** *** Sample data *)

Definition bot42 : Client.t :=
  mkClient "https://api.botlist.space/v1" (mkOptions "42" None "secret").

Definition raw_bot (the_id : string) : Value :=
  Obj [("id", Str the_id); ("owners", Arr [])].

(** The body of a listing of two bots, ["a"] then ["b"]. *)
Definition listing_ab : Value :=
  Obj [("bots", Arr [raw_bot "a"; raw_bot "b"])].

(** A body that, beside its list of bots, holds a property named ["0"]. *)
Definition listing_with_index : Value :=
  Obj [("bots", Arr [raw_bot "a"]); ("0", Obj [("id", Str "zzz")])].

Definition raw_upvote (user : string) : Value := Obj [("id", Str user)].

Definition upvotes_body (upvotes : list Value) : Value :=
  Obj [("upvotes", Arr upvotes)].

(** A server on which the only upvote, that of [user], is listed on the
    second page: the first page lists nothing. *)
Definition upvote_on_second_page (user : string) : Server :=
  fun r =>
    match query r with
    | [(_, Num n)] =>
        if num_same n one then Success (upvotes_body [])
        else if num_same n (of_nat 2) then Success (upvotes_body [raw_upvote user])
        else Success (upvotes_body [])
    | _ => Failure 400 "Bad Request"
    end.

(** The request for a page of the upvotes of the configured bot. *)
Definition upvotes_request (c : Client.t) (page : Value) : Request :=
  mkRequest GET (_baseURL c ++ "/bots/" ++ Client.id (_options c) ++ "/upvotes")
            [("page", page)] [("Authorization", botToken (_options c))] None.

Definition server_count_request (c : Client.t) (data : Value) : Request :=
  mkRequest POST (_baseURL c ++ "/bots/" ++ Client.id (_options c)) []
            [("Authorization", botToken (_options c))] (Some data).

(** A call that did not throw rejects with the error of the transport
    wrapped in an HTTPError when the request fails. *)
Definition wraps_failure {A} (call : Call A) : Prop :=
  forall status message,
    throws call = false ->
    outcome call (Failure status message)
    = Some (Rejected (HTTPError (TransportError status message))).

(** What a promise is rejected with, if it is rejected. *)
Definition rejection {A} (o : option (Settled A)) : option Error :=
  match o with
  | Some (Rejected e) => Some e
  | _ => None
  end.

(** The keys of a list are distinct for a Map: no key is the same as one
    that comes after it. *)
Fixpoint distinct_keys (ks : list Value) : bool :=
  match ks with
  | [] => true
  | k :: rest => forallb (fun k' => negb (same_key k k')) rest && distinct_keys rest
  end.

(** The entry the Bot constructor makes of a raw owner. *)
Definition owner_entry (owner : Value) : Value * User :=
  (peek owner "id", mkUser owner).

(** The key the filling loop reads at turn [i]: the id of the property
    of the body that is named by [i]. *)
Definition envelope_key (ps : list (string * Value)) (i : nat) : Value :=
  peek (field ps (index_name i)) "id".

(** The wire fields a Bot is built from, in the order of its fields. *)
Definition Bot_of_fields (ps : list (string * Value)) (its_owners : Collection.t User)
  : Bot :=
  mkBot (field ps "id") (field ps "username") (field ps "discriminator")
        (field ps "short_description") (field ps "full_description")
        (field ps "avatar") (field ps "invite")
        (field ps "avatarChildFriendly") (field ps "library")
        (field ps "prefix") its_owners (field ps "vanity")
        (field ps "links") (field ps "created_at") (field ps "updated_at").

End Spec.

(* ================================================================= *)
(** ** Properties *)

Import JS Structures Http Client Spec.
Local Open Scope nat_scope.

(** *** Numbers and property reads *)

Lemma Qltb_lt (x y : Q) : Qltb x y = true <-> (x < y)%Q.
Proof.
  unfold Qltb. rewrite negb_true_iff.
  split; intro H.
  - apply Qnot_le_lt. intro L. apply Qle_bool_iff in L. congruence.
  - destruct (Qle_bool y x) eqn:E; [|reflexivity].
    apply Qle_bool_iff in E. exfalso. exact (Qlt_not_le _ _ H E).
Qed.

Lemma num_ltb_of_nat (i n : nat) : num_ltb (of_nat i) (of_nat n) = (i <? n).
Proof.
  cbn [num_ltb of_nat].
  destruct (Nat.ltb_spec i n) as [L|L].
  - apply Qltb_lt. rewrite <- Zlt_Qlt. lia.
  - destruct (Qltb _ _) eqn:E; [|reflexivity].
    apply Qltb_lt in E. rewrite <- Zlt_Qlt in E. lia.
Qed.

(** A number below 0 is below 1. *)
Lemma num_ltb_zero_one (n : Number) : num_ltb n zero = true -> num_ltb n one = true.
Proof.
  destruct n as [|[|]|q]; cbn; try discriminate; try reflexivity.
  rewrite !Qltb_lt. intro H. eapply Qlt_trans; [exact H|]. reflexivity.
Qed.

(** 0 is below 1. *)
Lemma num_same_zero_lt_one (n : Number) : num_same n zero = true -> num_ltb n one = true.
Proof.
  destruct n as [|[|]|q]; cbn; try discriminate.
  rewrite Qltb_lt. intro H. apply Qeq_bool_iff in H. rewrite H. reflexivity.
Qed.

(** The typeof guards of the client, which the embedding renders by a
    match on the value. *)
Lemma typeof_number (v : Value) : typeof v = "number" <-> exists n, v = Num n.
Proof.
  split.
  - destruct v; cbn; try discriminate. eauto.
  - intros [n ->]. reflexivity.
Qed.

Lemma typeof_string (v : Value) : typeof v = "string" <-> exists s, v = Str s.
Proof.
  split.
  - destruct v; cbn; try discriminate. eauto.
  - intros [s ->]. reflexivity.
Qed.

Lemma field_missing ps name : lookup name ps = None -> field ps name = Undefined.
Proof. unfold field. now intros ->. Qed.

Lemma get_prop_defined v name :
  is_defined v = true -> get_prop v name = ret (peek v name).
Proof.
  unfold peek.
  destruct v; cbn; try discriminate; intros _; try reflexivity;
    destruct (String.eqb name "length"); reflexivity.
Qed.

Lemma get_prop_ret_defined v name x : get_prop v name = ret x -> is_defined v = true.
Proof. destruct v; cbn; try discriminate; reflexivity. Qed.

Lemma new_User_defined v : is_defined v = true -> new_User v = ret (mkUser v).
Proof. destruct v; cbn; try discriminate; reflexivity. Qed.

Lemma Arr_length l : get_prop (Arr l) "length" = ret (Num (of_nat (List.length l))).
Proof. reflexivity. Qed.

Lemma skipn_nth_error {A} (l : list A) : forall i x,
  nth_error l i = Some x -> skipn i l = x :: skipn (S i) l.
Proof.
  induction l as [|a l IH]; intros [|i] x H; cbn in *; try discriminate.
  - congruence.
  - now apply IH.
Qed.

(** *** The loop of the Bot constructor over an array of owners *)

Lemma Bot_owners_array ps os :
  lookup "owners" ps = Some (Arr os) -> forallb is_defined os = true ->
  Bot_owners (Obj ps) = ret (fold_left add_owner os Collection.empty).
Proof.
  intros Hl Hd. unfold Bot_owners, Bot_owners_within.
  assert (Hp : get_prop (Obj ps) "owners" = ret (Arr os)).
  { cbn. unfold field. now rewrite Hl. }
  assert (Hk : peek (Obj ps) "owners" = Arr os).
  { unfold peek. now rewrite Hp. }
  rewrite Hk. cbn [size].
  match goal with |- for_loop _ ?c ?b _ _ = _ => set (cond := c); set (body := b) end.
  assert (Hc : forall i, cond i = ret (i <? List.length os)).
  { intro i. unfold cond. rewrite Hp. cbn [bind ret]. rewrite Arr_length.
    cbn [bind ret lt_index]. now rewrite num_ltb_of_nat. }
  assert (Hb : forall i o acc, nth_error os i = Some o ->
                 body i acc = ret (add_owner acc o)).
  { intros i o acc E. unfold body. rewrite Hp. cbn [bind ret get_index].
    rewrite E. cbn [bind ret].
    assert (Do : is_defined o = true).
    { rewrite forallb_forall in Hd. apply Hd. eapply nth_error_In; eauto. }
    rewrite (get_prop_defined o "id" Do), (new_User_defined o Do). reflexivity. }
  clearbody cond body.
  change os with (skipn 0 os) at 2.
  generalize (@Collection.empty User) as acc.
  assert (G : forall fuel i acc, i <= List.length os -> List.length os - i < fuel ->
     for_loop fuel cond body i acc = ret (fold_left add_owner (skipn i os) acc)).
  { induction fuel as [|fuel IH]; intros i acc Hi Hf; [lia|].
    cbn [for_loop]. rewrite Hc. cbn [bind ret].
    destruct (Nat.ltb_spec i (List.length os)) as [L|L].
    - destruct (nth_error os i) as [o|] eqn:E.
      2:{ apply nth_error_None in E. lia. }
      rewrite (Hb i o acc E). cbn [bind ret].
      rewrite IH by lia.
      rewrite (skipn_nth_error os i o E). reflexivity.
    - assert (i = List.length os) by lia. subst i. rewrite skipn_all. reflexivity. }
  intro acc. apply G; lia.
Qed.

(** With its owners built, the constructor copies the other fields. *)
Lemma new_Bot_Obj ps this_owners :
  Bot_owners (Obj ps) = ret this_owners ->
  new_Bot (Obj ps)
  = ret (mkBot (field ps "id") (field ps "username") (field ps "discriminator")
               (field ps "short_description") (field ps "full_description")
               (field ps "avatar") (field ps "invite")
               (field ps "avatarChildFriendly") (field ps "library")
               (field ps "prefix") this_owners (field ps "vanity")
               (field ps "links") (field ps "created_at") (field ps "updated_at")).
Proof.
  intro H. unfold new_Bot. cbn [get_prop bind ret]. rewrite H. reflexivity.
Qed.

(** *** Fuel *)

(** A loop that stops at turn [j] gives the same result with any two
    amounts of fuel that reach [j]. *)
Lemma for_loop_fuel {S} (cond : nat -> M bool) (body : nat -> S -> M S) j :
  stops_at cond body j ->
  forall fuel1 fuel2 i s,
    i <= j -> j - i < fuel1 -> j - i < fuel2 ->
    for_loop fuel1 cond body i s = for_loop fuel2 cond body i s.
Proof.
  intros Hj.
  induction fuel1 as [|fuel1 IH]; intros [|fuel2] i s Hi H1 H2; try lia.
  cbn [for_loop].
  destruct (cond i) as [[[|]|e]|] eqn:C; cbn [bind]; try reflexivity.
  destruct (body i s) as [[s'|e]|] eqn:B; cbn [bind]; try reflexivity.
  destruct (Nat.eq_dec i j) as [->|N].
  - exfalso. exact (Hj s s' C B).
  - apply IH; lia.
Qed.

Lemma index_name_inj i j : index_name i = index_name j -> i = j.
Proof.
  unfold index_name. intro H.
  apply DecimalNat.Unsigned.to_uint_inj.
  assert (E : Some (Nat.to_uint i) = Some (Nat.to_uint j)).
  { rewrite <- !NilEmpty.usu. now rewrite H. }
  now injection E.
Qed.

Lemma NoDup_map_inj {A B} (f : A -> B) l :
  (forall x y, f x = f y -> x = y) -> NoDup l -> NoDup (map f l).
Proof.
  intros Hf. induction 1 as [|x l Hx _ IH]; cbn; constructor; [|exact IH].
  rewrite in_map_iff. intros (y & E & Hy). apply Hf in E. now subst.
Qed.

Lemma Str_length s : get_prop (Str s) "length" = ret (Num (of_nat (String.length s))).
Proof. reflexivity. Qed.

Lemma lookup_In name ps v : lookup name ps = Some v -> In name (map fst ps).
Proof.
  induction ps as [|[k x] ps IH]; cbn; [discriminate|].
  destruct (String.eqb_spec k name); auto.
Qed.

(** An object does not hold every index up to the number of its
    properties. *)
Lemma missing_index ps :
  exists j, j <= List.length ps /\ lookup (index_name j) ps = None.
Proof.
  set (n := List.length ps).
  destruct (Exists_dec (fun j => lookup (index_name j) ps = None) (seq 0 (Datatypes.S n)))
    as [E|E].
  - intro j. destruct (lookup (index_name j) ps); [right; discriminate | now left].
  - apply Exists_exists in E. destruct E as (j & Hin & Hj).
    apply in_seq in Hin. exists j. split; [lia | exact Hj].
  - exfalso.
    assert (L : List.length (map index_name (seq 0 (Datatypes.S n)))
                <= List.length (map fst ps)).
    { apply NoDup_incl_length.
      - apply NoDup_map_inj; [apply index_name_inj | apply seq_NoDup].
      - intros name Hin. apply in_map_iff in Hin. destruct Hin as (j & <- & Hj).
        destruct (lookup (index_name j) ps) as [v|] eqn:Lk.
        + eapply lookup_In; eauto.
        + exfalso. apply E. apply Exists_exists. eauto. }
    rewrite !length_map, length_seq in L. unfold n in L. lia.
Qed.

(** The loop of the Bot constructor gives the same owners with any fuel
    above the size of [bot.owners]. *)
Lemma Bot_owners_fuel bot fuel :
  size (peek bot "owners") < fuel ->
  Bot_owners_within fuel bot = Bot_owners bot.
Proof.
  intro Hf. unfold Bot_owners, Bot_owners_within.
  match goal with |- for_loop _ ?c ?b _ _ = _ => set (cond := c); set (body := b) end.
  assert (Hs : exists j, j <= size (peek bot "owners") /\ stops_at cond body j).
  { unfold peek, stops_at, cond, body.
    destruct (get_prop bot "owners") as [[v|e]|] eqn:Hp; cbn [bind].
    2,3: exists 0; split; [lia|]; intros s s' C; discriminate C.
    destruct v as [| |b|n|s|l|ps].
    1-4: exists 0; split; [cbn; lia|]; intros s0 s' C; discriminate C.
    - exists (String.length s). split; [cbn; lia|]. intros s0 s' C. exfalso.
      cbn [bind] in C. rewrite Str_length in C. cbn [bind ret lt_index] in C.
      rewrite num_ltb_of_nat, Nat.ltb_irrefl in C. discriminate C.
    - exists (List.length l). split; [cbn; lia|]. intros s0 s' C. exfalso.
      cbn [bind] in C. rewrite Arr_length in C. cbn [bind ret lt_index] in C.
      rewrite num_ltb_of_nat, Nat.ltb_irrefl in C. discriminate C.
    - destruct (missing_index ps) as (j & Hj & Hm).
      exists j. split; [exact Hj|]. intros s0 s' _.
      cbn [get_index]. unfold field. rewrite Hm. discriminate. }
  destruct Hs as (j & Hj & Hs).
  apply (for_loop_fuel cond body j Hs); lia.
Qed.

(** The loop that fills a pagination gives the same pagination with any
    fuel above the size of the body. *)
Lemma fill_fuel {V} items (wrap : Value -> M V) result_body fuel :
  size result_body < fuel ->
  fill_within fuel items wrap result_body = fill items wrap result_body.
Proof.
  intro Hf. unfold fill, fill_within.
  match goal with |- for_loop _ ?c ?b _ _ = _ => set (cond := c); set (body := b) end.
  assert (Hs : exists j, j <= size result_body /\ stops_at cond body j).
  { unfold stops_at, cond, body.
    destruct result_body as [| |b|n|s|l|ps].
    1-4: exists 0; split; [cbn; lia|]; intros s0 s' C; discriminate C.
    - exists 0. split; [cbn; lia|]. intros s0 s' C. exfalso.
      cbn [get_prop] in C. destruct (String.eqb items "length"); discriminate C.
    - exists 0. split; [cbn; lia|]. intros s0 s' C. exfalso.
      cbn [get_prop] in C. destruct (String.eqb items "length"); discriminate C.
    - destruct (missing_index ps) as (j & Hj & Hm).
      exists j. split; [exact Hj|]. intros s0 s' _.
      cbn [get_index]. unfold field at 1. rewrite Hm. discriminate. }
  destruct Hs as (j & Hj & Hs).
  apply (for_loop_fuel cond body j Hs); lia.
Qed.

(* ================================================================= *)
(** ** Entity wrappers: the Bot constructor *)

(** C4, as the code has it: from a raw JSON object whose [owners] is an
    array with no null (or undefined) entry, the Bot constructor does not
    throw; it copies each field of the raw object under its new name, so
    that a field the raw object lacks is undefined on the wrapper, and it
    wraps the owners in order. *)
Theorem new_Bot_passes_missing_fields_through ps os :
  lookup "owners" ps = Some (Arr os) ->
  forallb is_defined os = true ->
  new_Bot (Obj ps)
  = ret (mkBot (field ps "id") (field ps "username") (field ps "discriminator")
               (field ps "short_description") (field ps "full_description")
               (field ps "avatar") (field ps "invite")
               (field ps "avatarChildFriendly") (field ps "library")
               (field ps "prefix") (fold_left add_owner os Collection.empty)
               (field ps "vanity") (field ps "links")
               (field ps "created_at") (field ps "updated_at"))
  /\ (forall name, lookup name ps = None -> field ps name = Undefined).
Proof.
  intros Hl Hd. split.
  - apply new_Bot_Obj. now apply Bot_owners_array.
  - apply field_missing.
Qed.

Lemma new_Bot_passes_missing_fields_through_witness :
  exists b,
    new_Bot (Obj [("id", Str "a"); ("owners", Arr [Obj [("id", Str "u1")]])]) = ret b
    /\ Structures.id b = Str "a"
    /\ username b = Undefined
    /\ Collection.keyArray (getOwners b) = [Str "u1"].
Proof.
  destruct (new_Bot_passes_missing_fields_through
              [("id", Str "a"); ("owners", Arr [Obj [("id", Str "u1")]])]
              [Obj [("id", Str "u1")]] eq_refl eq_refl) as [H _].
  eexists. split; [exact H|]. repeat split; reflexivity.
Defined.

(** Without [owners], the constructor throws: [bot.owners.length] reads a
    property of undefined. *)
Lemma new_Bot_requires_owners ps :
  lookup "owners" ps = None -> new_Bot (Obj ps) = throw NativeTypeError.
Proof.
  intro H. unfold new_Bot. cbn [get_prop bind ret].
  unfold Bot_owners, Bot_owners_within, peek. cbn [get_prop ret].
  rewrite (field_missing ps "owners" H). reflexivity.
Qed.

(** C4, as stated, fails: a raw object without [owners] makes the
    constructor throw, where the claim has the field pass through. *)
Lemma new_Bot_without_owners_throws :
  lookup "owners" [("id", Str "a"); ("username", Str "Ada")] = None
  /\ new_Bot (Obj [("id", Str "a"); ("username", Str "Ada")]) = throw NativeTypeError.
Proof. split; reflexivity. Qed.

(** C9: a Bot built from a raw object whose [owners] array holds two
    entries with distinct ids has two owners; they are, in the order of
    the array, the User wrappers of the two raw owners, each under the id
    of its raw owner. *)
Theorem new_Bot_two_owners ps o1 o2 k1 k2 :
  lookup "owners" ps = Some (Arr [o1; o2]) ->
  get_prop o1 "id" = ret k1 ->
  get_prop o2 "id" = ret k2 ->
  same_key k1 k2 = false ->
  exists b u1 u2,
    new_Bot (Obj ps) = ret b
    /\ new_User o1 = ret u1 /\ new_User o2 = ret u2
    /\ List.length (Collection.array (getOwners b)) = 2
    /\ getOwners b = [(k1, u1); (k2, u2)]
    /\ Collection.array (getOwners b) = [u1; u2].
Proof.
  intros Hl H1 H2 Hk.
  pose proof (get_prop_ret_defined _ _ _ H1) as D1.
  pose proof (get_prop_ret_defined _ _ _ H2) as D2.
  assert (P1 : peek o1 "id" = k1) by (unfold peek; now rewrite H1).
  assert (P2 : peek o2 "id" = k2) by (unfold peek; now rewrite H2).
  assert (Hd : forallb is_defined [o1; o2] = true) by (cbn; now rewrite D1, D2).
  exists (mkBot (field ps "id") (field ps "username") (field ps "discriminator")
               (field ps "short_description") (field ps "full_description")
               (field ps "avatar") (field ps "invite")
               (field ps "avatarChildFriendly") (field ps "library")
               (field ps "prefix") [(k1, mkUser o1); (k2, mkUser o2)]
               (field ps "vanity") (field ps "links")
               (field ps "created_at") (field ps "updated_at")),
         (mkUser o1), (mkUser o2).
  split.
  - apply new_Bot_Obj. rewrite (Bot_owners_array ps [o1; o2] Hl Hd).
    cbn [fold_left]. unfold add_owner. rewrite P1, P2.
    cbn [Collection.set Collection.empty]. now rewrite Hk.
  - repeat split; auto using new_User_defined.
Qed.

Lemma new_Bot_two_owners_witness :
  exists b,
    new_Bot (Obj [("id", Str "a");
                  ("owners", Arr [Obj [("id", Str "u1")]; Obj [("id", Str "u2")]])])
    = ret b
    /\ getOwners b = [(Str "u1", mkUser (Obj [("id", Str "u1")]));
                      (Str "u2", mkUser (Obj [("id", Str "u2")]))].
Proof.
  destruct (new_Bot_two_owners
              [("id", Str "a");
               ("owners", Arr [Obj [("id", Str "u1")]; Obj [("id", Str "u2")]])]
              (Obj [("id", Str "u1")]) (Obj [("id", Str "u2")])
              (Str "u1") (Str "u2") eq_refl eq_refl eq_refl eq_refl)
    as (b & u1 & u2 & Hb & Hu1 & Hu2 & _ & Ho & _).
  exists b. split; [exact Hb|].
  rewrite Ho. cbn in Hu1, Hu2. unfold ret in Hu1, Hu2.
  injection Hu1 as <-. injection Hu2 as <-. reflexivity.
Defined.

(* ================================================================= *)
(** ** The page argument *)

Example is_page_examples :
  is_page (Num one) = true /\ is_page (Num (of_nat 7)) = true
  /\ is_page (Num (Finite (4 # 2))) = true
  /\ is_page (Num (Finite (3 # 2))) = false /\ is_page (Num zero) = false
  /\ is_page (Num NaN) = false /\ is_page (Str "1") = false.
Proof. repeat split. Qed.

(** C2, as the code has it: getAllBots and getUserBots throw, before any
    request is issued, for every page argument (other than undefined, for
    which the default page 1 is taken) that is not a number or that is a
    number below 1; getUpvotes throws, before any request is issued, for
    every such argument that is not a number. *)
Theorem page_argument_validation c id_arg page :
  page <> Undefined ->
  (typeof page <> "number" \/ exists n, page = Num n /\ num_ltb n one = true) ->
  (throws (getAllBots c page) = true /\ request_of (getAllBots c page) = None)
  /\ (throws (getUserBots c id_arg page) = true
      /\ request_of (getUserBots c id_arg page) = None)
  /\ (typeof page <> "number" ->
      throws (getUpvotes c page) = true /\ request_of (getUpvotes c page) = None).
Proof.
  intros Hu [Ht | (n & -> & Hn)].
  - destruct page; try congruence; cbn in Ht; try congruence;
      (split; [split; reflexivity|];
       split; [destruct id_arg; split; reflexivity|];
       intros _; split; reflexivity).
  - unfold getAllBots, getUserBots. cbn [default_arg]. rewrite Hn.
    split; [split; reflexivity|].
    split; [destruct id_arg; split; reflexivity|].
    intro Ht. cbn in Ht. congruence.
Qed.

Lemma page_argument_validation_witness :
  (throws (getAllBots bot42 (Num zero)) = true
   /\ throws (getUserBots bot42 (Str "7") (Num zero)) = true)
  /\ (throws (getAllBots bot42 (Str "2")) = true
      /\ throws (getUpvotes bot42 (Str "2")) = true
      /\ request_of (getUpvotes bot42 (Str "2")) = None).
Proof.
  split.
  - destruct (page_argument_validation bot42 (Str "7") (Num zero))
      as ((H1 & _) & (H2 & _) & _).
    + discriminate.
    + right. exists zero. split; reflexivity.
    + split; assumption.
  - destruct (page_argument_validation bot42 (Str "7") (Str "2"))
      as ((H1 & _) & _ & H3).
    + discriminate.
    + left. cbn. discriminate.
    + destruct H3 as [H3 H4]; [cbn; discriminate|]. repeat split; assumption.
Defined.

(** C2, as stated, fails: 3/2 is a number that is not an integer, and
    getAllBots issues its request for it; 0 is below 1, and getUpvotes
    issues its request for it. *)
Lemma page_argument_counterexample :
  (is_page (Num (Finite (3 # 2))) = false
   /\ throws (getAllBots bot42 (Num (Finite (3 # 2)))) = false
   /\ request_of (getAllBots bot42 (Num (Finite (3 # 2))))
      = Some (mkRequest GET "https://api.botlist.space/v1/bots"
                        [("page", Num (Finite (3 # 2)))] [] None))
  /\ (is_page (Num zero) = false
      /\ throws (getUpvotes bot42 (Num zero)) = false
      /\ request_of (getUpvotes bot42 (Num zero))
         = Some (upvotes_request bot42 (Num zero))).
Proof. repeat split; reflexivity. Qed.

(** C8, as the code has it: getAllBots throws, before any request is
    issued, when it is given 0, a negative number, or a value other than
    undefined that is not a number. *)
Theorem getAllBots_refuses_page c page :
  page <> Undefined ->
  ((exists n, page = Num n /\ (num_same n zero = true \/ num_ltb n zero = true))
   \/ typeof page <> "number") ->
  (exists e, getAllBots c page = Thrown e)
  /\ request_of (getAllBots c page) = None.
Proof.
  intros Hu H.
  assert (E : exists e, getAllBots c page = Thrown e).
  { destruct H as [(n & -> & Hn) | Ht].
    - unfold getAllBots. cbn [default_arg].
      assert (L : num_ltb n one = true).
      { destruct Hn; [now apply num_same_zero_lt_one | now apply num_ltb_zero_one]. }
      rewrite L. eexists. reflexivity.
    - destruct page; try congruence; cbn in Ht; try congruence;
        eexists; reflexivity. }
  split; [exact E|]. destruct E as [e ->]. reflexivity.
Qed.

Lemma getAllBots_refuses_page_witness :
  request_of (getAllBots bot42 (Num zero)) = None
  /\ request_of (getAllBots bot42 (Num (Finite (-1)))) = None
  /\ request_of (getAllBots bot42 (Str "1")) = None
  /\ request_of (getAllBots bot42 Null) = None.
Proof.
  split; [|split; [|split]].
  - apply (getAllBots_refuses_page bot42 (Num zero)); [discriminate|].
    left. exists zero. split; [reflexivity | left; reflexivity].
  - apply (getAllBots_refuses_page bot42 (Num (Finite (-1)))); [discriminate|].
    left. exists (Finite (-1)). split; [reflexivity | right; reflexivity].
  - apply (getAllBots_refuses_page bot42 (Str "1")); [discriminate|].
    right. cbn. discriminate.
  - apply (getAllBots_refuses_page bot42 Null); [discriminate|].
    right. cbn. discriminate.
Defined.

(** C8, as stated, fails: undefined is not a number, and getAllBots takes
    the default page for it and issues its request. *)
Lemma getAllBots_undefined_page_counterexample :
  typeof Undefined <> "number"
  /\ throws (getAllBots bot42 Undefined) = false
  /\ request_of (getAllBots bot42 Undefined)
     = Some (mkRequest GET "https://api.botlist.space/v1/bots"
                       [("page", Num one)] [] None).
Proof. repeat split; cbn; discriminate. Qed.

(* ================================================================= *)
(** ** Listings *)

(** The loop that fills a pagination reads the key of its first entry
    from [result.body[0]]: on a body that lists at least one item and has
    no property named ["0"], it throws. *)
Lemma fill_throws_without_index {V} items (wrap : Value -> M V) ps x xs :
  lookup items ps = Some (Arr (x :: xs)) ->
  lookup "0" ps = None ->
  fill items wrap (Obj ps) = throw NativeTypeError.
Proof.
  intros Hl H0. unfold fill, fill_within. cbn [for_loop get_prop bind ret].
  unfold field at 1. rewrite Hl. rewrite Arr_length.
  cbn [bind ret lt_index]. rewrite num_ltb_of_nat.
  cbn [List.length Nat.ltb Nat.leb get_index bind ret].
  change (index_name 0) with "0". unfold field at 1. rewrite H0.
  reflexivity.
Qed.

(** So do getAllBots and getUserBots reject, whatever the page asked for,
    on every such body. *)
Lemma listing_rejected c user n ps x xs :
  num_ltb n one = false ->
  lookup "bots" ps = Some (Arr (x :: xs)) ->
  lookup "0" ps = None ->
  outcome (getAllBots c (Num n)) (Success (Obj ps))
  = Some (Rejected (HTTPError NativeTypeError))
  /\ outcome (getUserBots c (Str user) (Num n)) (Success (Obj ps))
     = Some (Rejected (HTTPError NativeTypeError)).
Proof.
  intros Hn Hl H0.
  unfold getAllBots, getUserBots. cbn [default_arg]. rewrite Hn.
  cbn [outcome then_catch settle snekfetch].
  rewrite (fill_throws_without_index "bots" new_Bot ps x xs Hl H0).
  split; reflexivity.
Qed.

(** C1 at the response the claim names, a listing of the bots ["a"] and
    ["b"]: the promise of getAllBots, and that of getUserBots, is not
    resolved with a pagination holding the two bots; it is rejected with
    the TypeError that reading [result.body[0].id] raises.  On a body that
    does hold a property ["0"], the bot ["a"] is stored under the id found
    there, and not under its own. *)
Theorem getAllBots_listing_not_keyed_by_id c :
  outcome (getAllBots c (Num one)) (Success listing_ab)
  = Some (Rejected (HTTPError NativeTypeError))
  /\ outcome (getUserBots c (Str "7") (Num one)) (Success listing_ab)
     = Some (Rejected (HTTPError NativeTypeError))
  /\ option_map
       (fun s => match s with
                 | Resolved p => Some (Pagination_keyArray p, Pagination_has (Str "a") p)
                 | Rejected _ => None
                 end)
       (outcome (getAllBots c (Num one)) (Success listing_with_index))
     = Some (Some ([Str "zzz"], false)).
Proof. split; [|split]; reflexivity. Qed.

(* ================================================================= *)
(** ** Failed requests *)

(** Every operation but getStatistics hands the error of a failed request
    over wrapped in an HTTPError. *)
Lemma failures_are_wrapped c v w :
  wraps_failure (getAllBots c v) /\ wraps_failure (getBot c v)
  /\ wraps_failure (getUpvotes c v) /\ wraps_failure (hasUpvoted c v)
  /\ wraps_failure (postServerCount c v) /\ wraps_failure (getUser c v)
  /\ wraps_failure (getUserBots c v w).
Proof.
  unfold wraps_failure.
  repeat match goal with |- _ /\ _ => split end; intros status message.
  - unfold getAllBots. destruct (default_arg v (Num one)); try discriminate.
    destruct (num_ltb n one); [discriminate|reflexivity].
  - destruct v; try discriminate; reflexivity.
  - unfold getUpvotes. destruct (default_arg v (Num one)); try discriminate. reflexivity.
  - destruct v; try discriminate; reflexivity.
  - unfold postServerCount.
    destruct (negb (String.eqb (typeof v) "number") && negb (isArray v));
      [discriminate|reflexivity].
  - destruct v; try discriminate; reflexivity.
  - unfold getUserBots. destruct v; try discriminate.
    destruct (default_arg w (Num one)); try discriminate.
    destruct (num_ltb n one); [discriminate|reflexivity].
Qed.

(** C3 at getStatistics: when the request fails, the promise is rejected
    with the error of the transport itself, not with an HTTPError wrapping
    it ([reject] is given the HTTPError as a second argument). *)
Theorem getStatistics_rejects_with_bare_error c status message :
  outcome (getStatistics c) (Failure status message)
  = Some (Rejected (TransportError status message))
  /\ outcome (getStatistics c) (Failure status message)
     <> Some (Rejected (HTTPError (TransportError status message))).
Proof. split; [reflexivity|]. cbn. discriminate. Qed.

(* ================================================================= *)
(** ** Upvotes *)

Lemma same_key_Str k s : same_key k (Str s) = true <-> k = Str s.
Proof.
  destruct k; cbn; try (split; [discriminate | intro E; discriminate E]).
  rewrite String.eqb_eq. split; congruence.
Qed.

(** For a string, [has] is membership among the keys. *)
Lemma has_Str_keyArray {V} (c : Collection.t V) s :
  Collection.has (Str s) c = true <-> In (Str s) (Collection.keyArray c).
Proof.
  unfold Collection.has.
  induction c as [|[k v] c IH]; cbn [Collection.get Collection.keyArray map fst In].
  - split; [discriminate | tauto].
  - destruct (same_key k (Str s)) eqn:E.
    + apply same_key_Str in E. split; auto.
    + split.
      * intro H. right. now apply IH.
      * intros [H | H]; [| now apply IH].
        apply same_key_Str in H. congruence.
Qed.

(** C5: hasUpvoted issues the request of getUpvotes() and settles as it
    does, resolving to whether the user is a key of the pagination
    getUpvotes() resolves to: it resolves to true if and only if
    getUpvotes(), given the same response, resolves to a pagination that
    has the user among its keys. *)
Theorem hasUpvoted_iff_key_of_getUpvotes c userID response :
  request_of (hasUpvoted c (Str userID)) = request_of (getUpvotes c Undefined)
  /\ outcome (hasUpvoted c (Str userID)) response
     = option_map
         (fun s => match s with
                   | Resolved pagination => Resolved (Pagination_has (Str userID) pagination)
                   | Rejected e => Rejected e
                   end)
         (outcome (getUpvotes c Undefined) response)
  /\ (outcome (hasUpvoted c (Str userID)) response = Some (Resolved true)
      <-> exists pagination,
            outcome (getUpvotes c Undefined) response = Some (Resolved pagination)
            /\ In (Str userID) (Pagination_keyArray pagination)).
Proof.
  assert (E : outcome (hasUpvoted c (Str userID)) response
              = option_map
                  (fun s => match s with
                            | Resolved pagination =>
                                Resolved (Pagination_has (Str userID) pagination)
                            | Rejected e => Rejected e
                            end)
                  (outcome (getUpvotes c Undefined) response)).
  { cbn [hasUpvoted getUpvotes default_arg outcome then_catch settle issued].
    match goal with
    | |- context [settle (snekfetch ?r) response] =>
        destruct (settle (snekfetch r) response) as [[body|e]|]
    end; try reflexivity.
    destruct (fill "upvotes" new_Upvote body) as [[p|e]|]; reflexivity. }
  split; [reflexivity|]. split; [exact E|].
  rewrite E. unfold Pagination_keyArray.
  destruct (outcome (getUpvotes c Undefined) response) as [[p|e]|]; cbn [option_map].
  - split.
    + intro H. exists p. split; [reflexivity|].
      apply has_Str_keyArray. unfold Pagination_has in H. congruence.
    + intros (p' & Hp & Hin). injection Hp as <-.
      apply has_Str_keyArray in Hin. unfold Pagination_has. now rewrite Hin.
  - split; [discriminate|]. intros (p' & Hp & _). discriminate.
  - split; [discriminate|]. intros (p' & Hp & _). discriminate.
Qed.

(** hasUpvoted does resolve to true on some response. *)
Example hasUpvoted_true :
  outcome (hasUpvoted bot42 (Str "7"))
          (Success (Obj [("0", raw_upvote "7"); ("upvotes", Arr [raw_upvote "7"])]))
  = Some (Resolved true).
Proof. reflexivity. Qed.

(** C10: hasUpvoted asks for the first page of the upvotes, whoever the
    user: its request is that of getUpvotes(1).  On a server that lists
    the upvote of a user on the second page only, it resolves to false for
    that user. *)
Theorem hasUpvoted_reads_first_page_only c user :
  request_of (hasUpvoted c (Str user)) = Some (upvotes_request c (Num one))
  /\ request_of (hasUpvoted c (Str user)) = request_of (getUpvotes c (Num one))
  /\ exists server : Server,
       server (upvotes_request c (Num one)) = Success (upvotes_body [])
       /\ server (upvotes_request c (Num (of_nat 2)))
          = Success (upvotes_body [raw_upvote user])
       /\ run server (hasUpvoted c (Str user)) = Some (Resolved false).
Proof.
  split; [reflexivity|]. split; [reflexivity|].
  exists (upvote_on_second_page user).
  split; [reflexivity|]. split; reflexivity.
Qed.

(* ================================================================= *)
(** ** Posting the server count *)

(** C6: for a number, postServerCount posts [{server_count: count}]; for
    an array, it posts [{shards: count}]; for a value of any other type it
    throws, and issues no request. *)
Theorem postServerCount_body c count :
  request_of (postServerCount c count)
  = match count with
    | Num _ => Some (server_count_request c (Obj [("server_count", count)]))
    | Arr _ => Some (server_count_request c (Obj [("shards", count)]))
    | _ => None
    end
  /\ throws (postServerCount c count)
     = match count with
       | Num _ | Arr _ => false
       | _ => true
       end.
Proof. destruct count; split; reflexivity. Qed.

(* ================================================================= *)
(** ** The bot of the client *)

Lemma new_Client_options options c :
  new_Client options = ret c ->
  get_prop options "id" = ret (Str (Client.id (_options c)))
  /\ _baseURL c = "https://api.botlist.space/v1".
Proof.
  unfold new_Client.
  destruct options as [| | | | |l|ps]; cbn [isObject isArray negb andb]; try discriminate.
  cbn [get_prop bind ret].
  destruct (field ps "id") as [| | | |the_id| |]; try discriminate.
  destruct (has_property "userToken" (Obj ps)).
  - destruct (field ps "userToken"); try discriminate.
    cbn [bind ret].
    destruct (field ps "botToken"); try discriminate.
    unfold ret. intro H. injection H as <-. split; reflexivity.
  - cbn [bind ret].
    destruct (field ps "botToken"); try discriminate.
    unfold ret. intro H. injection H as <-. split; reflexivity.
Qed.

(** C7: for a client made from [options], getSelfBot is getBot called with
    the id of [options]: the two calls are the same, so they issue the
    same request, the one for the bot of that id, and settle alike on
    every response. *)
Theorem getSelfBot_is_getBot_of_configured_id options c configured_id :
  new_Client options = ret c ->
  get_prop options "id" = ret configured_id ->
  getBot_of_configured_id options c = ret (getSelfBot c)
  /\ getSelfBot c = getBot c configured_id
  /\ request_of (getSelfBot c) = request_of (getBot c configured_id)
  /\ request_of (getSelfBot c)
     = Some (mkRequest GET ("https://api.botlist.space/v1/bots/" ++ Client.id (_options c))
                       [] [] None)
  /\ (forall response,
        outcome (getSelfBot c) response = outcome (getBot c configured_id) response).
Proof.
  intros H Hc. destruct (new_Client_options options c H) as [Hid Hbase].
  rewrite Hid in Hc. unfold ret in Hc. injection Hc as <-.
  split; [|split; [|split; [|split]]]; try reflexivity.
  - unfold getBot_of_configured_id. rewrite Hid. reflexivity.
  - unfold getSelfBot, getBot. cbn [request_of then_catch issued snekfetch].
    now rewrite Hbase.
Qed.

Lemma getSelfBot_is_getBot_of_configured_id_witness :
  getSelfBot bot42 = getBot bot42 (Str "42")
  /\ request_of (getSelfBot bot42)
     = Some (mkRequest GET "https://api.botlist.space/v1/bots/42" [] [] None).
Proof.
  destruct (getSelfBot_is_getBot_of_configured_id
              (Obj [("id", Str "42"); ("botToken", Str "secret")]) bot42 (Str "42")
              eq_refl eq_refl) as (_ & H1 & _ & H2 & _).
  split; [exact H1 | exact H2].
Defined.

(* ================================================================= *)
(** ** The constructor of the client *)

(** X1: the constructor accepts its options exactly when they are an
    object whose [id] and [botToken] are strings and whose [userToken],
    if it has one, is a string; the client then holds these three and the
    fixed base URL. *)
Theorem new_Client_accepts options c :
  new_Client options = ret c <->
  exists ps the_id the_botToken,
    options = Obj ps
    /\ field ps "id" = Str the_id
    /\ field ps "botToken" = Str the_botToken
    /\ match lookup "userToken" ps with
       | None => userToken (_options c) = None
       | Some v => exists s, v = Str s /\ userToken (_options c) = Some s
       end
    /\ _baseURL c = "https://api.botlist.space/v1"
    /\ Client.id (_options c) = the_id
    /\ botToken (_options c) = the_botToken.
Proof.
  split.
  - unfold new_Client.
    destruct options as [| | | | |l|ps]; cbn [isObject isArray negb andb]; try discriminate.
    cbn [get_prop bind ret has_property].
    destruct (field ps "id") as [| | | |the_id| |] eqn:Hid; try discriminate.
    unfold field at 1.
    destruct (lookup "userToken" ps) as [v|] eqn:Hut.
    + destruct v; try discriminate. cbn [bind ret].
      destruct (field ps "botToken") as [| | | |the_botToken| |] eqn:Hbt; try discriminate.
      unfold ret. intro H. injection H as <-.
      exists ps, the_id, the_botToken. rewrite Hut. cbn. repeat split; eauto.
    + cbn [bind ret].
      destruct (field ps "botToken") as [| | | |the_botToken| |] eqn:Hbt; try discriminate.
      unfold ret. intro H. injection H as <-.
      exists ps, the_id, the_botToken. rewrite Hut. cbn. repeat split; eauto.
  - intros (ps & the_id & the_botToken & -> & Hid & Hbt & Hut & Hbase & Hi & Ht).
    destruct c as [base [i u t]]. cbn in Hut, Hbase, Hi, Ht. subst base i t.
    unfold new_Client. cbn [isObject isArray negb andb get_prop bind ret has_property].
    rewrite Hid. unfold field at 1.
    destruct (lookup "userToken" ps) as [v|].
    + destruct Hut as (s & -> & ->). cbn [bind ret]. rewrite Hbt. reflexivity.
    + subst u. cbn [bind ret]. rewrite Hbt. reflexivity.
Qed.



(* ================================================================= *)
(** ** What the requests carry *)

(** X3: the user token of the options is used by no operation: two
    clients that differ by it only make the same calls. *)
Theorem userToken_is_never_used base bot_id token ut ut' v w :
  let c := mkClient base (mkOptions bot_id ut token) in
  let c' := mkClient base (mkOptions bot_id ut' token) in
  getStatistics c = getStatistics c'
  /\ getAllBots c v = getAllBots c' v
  /\ getBot c v = getBot c' v
  /\ getUpvotes c v = getUpvotes c' v
  /\ hasUpvoted c v = hasUpvoted c' v
  /\ getSelfBot c = getSelfBot c'
  /\ postServerCount c v = postServerCount c' v
  /\ getUser c v = getUser c' v
  /\ getUserBots c v w = getUserBots c' v w.
Proof. cbv zeta. repeat (split; [reflexivity|]). reflexivity. Qed.

(** X4: the bot token goes to the endpoints of the configured bot only.
    The calls that read the site, a bot or a user are the same whatever
    the token; getUpvotes, hasUpvoted and postServerCount send it as the
    Authorization header, and send no other header. *)
Theorem botToken_is_sent_for_the_configured_bot_only base bot_id ut token token' v w :
  let c := mkClient base (mkOptions bot_id ut token) in
  let c' := mkClient base (mkOptions bot_id ut token') in
  (getStatistics c = getStatistics c'
   /\ getAllBots c v = getAllBots c' v
   /\ getBot c v = getBot c' v
   /\ getSelfBot c = getSelfBot c'
   /\ getUser c v = getUser c' v
   /\ getUserBots c v w = getUserBots c' v w)
  /\ (forall r, In (Some r) [request_of (getUpvotes c v);
                             request_of (hasUpvoted c v);
                             request_of (postServerCount c v)] ->
                headers r = [("Authorization", token)]).
Proof.
  cbv zeta. split.
  - repeat (split; [reflexivity|]). reflexivity.
  - intros r [H | [H | [H | []]]].
    + unfold getUpvotes in H. destruct (default_arg v (Num one)); try discriminate H.
      injection H as <-. reflexivity.
    + destruct v; try discriminate H. injection H as <-. reflexivity.
    + unfold postServerCount in H.
      destruct (negb (String.eqb (typeof v) "number") && negb (isArray v));
        try discriminate H.
      injection H as <-. reflexivity.
Qed.

(** X5: a client made by the constructor sends every request to the API:
    the URL of each request starts with the fixed base URL. *)
Theorem requests_go_to_the_api options c v w r :
  new_Client options = ret c ->
  In (Some r) [request_of (getStatistics c); request_of (getAllBots c v);
               request_of (getBot c v); request_of (getUpvotes c v);
               request_of (hasUpvoted c v); request_of (getSelfBot c);
               request_of (postServerCount c v); request_of (getUser c v);
               request_of (getUserBots c v w)] ->
  String.prefix "https://api.botlist.space/v1/" (url r) = true.
Proof.
  intros Hc Hin. destruct (new_Client_options options c Hc) as [_ Hb].
  destruct c as [base o]. cbn in Hb. subst base.
  cbn [In] in Hin.
  repeat match type of Hin with _ \/ _ => destruct Hin as [Hin | Hin] end;
    try contradiction.
  - injection Hin as <-. reflexivity.
  - unfold getAllBots in Hin. destruct (default_arg v (Num one)); try discriminate Hin.
    destruct (num_ltb n one); try discriminate Hin. injection Hin as <-. reflexivity.
  - destruct v; try discriminate Hin. injection Hin as <-. reflexivity.
  - unfold getUpvotes in Hin. destruct (default_arg v (Num one)); try discriminate Hin.
    injection Hin as <-. reflexivity.
  - destruct v; try discriminate Hin. injection Hin as <-. reflexivity.
  - injection Hin as <-. reflexivity.
  - unfold postServerCount in Hin.
    destruct (negb (String.eqb (typeof v) "number") && negb (isArray v));
      try discriminate Hin.
    injection Hin as <-. reflexivity.
  - destruct v; try discriminate Hin. injection Hin as <-. reflexivity.
  - unfold getUserBots in Hin. destruct v; try discriminate Hin.
    destruct (default_arg w (Num one)); try discriminate Hin.
    destruct (num_ltb n one); try discriminate Hin. injection Hin as <-. reflexivity.
Qed.

Lemma requests_go_to_the_api_witness :
  String.prefix "https://api.botlist.space/v1/"
                "https://api.botlist.space/v1/bots/7" = true.
Proof.
  apply (requests_go_to_the_api
           (Obj [("id", Str "42"); ("botToken", Str "secret")]) bot42
           (Str "7") Undefined
           (mkRequest GET "https://api.botlist.space/v1/bots/7" [] [] None)
           eq_refl).
  right. right. left. reflexivity.
Defined.

(** X6: every operation either throws and issues no request, or returns
    a promise for which it has issued one request. *)
Theorem one_request_unless_thrown c v w :
  Forall (fun call : bool * option Request =>
            (fst call = true /\ snd call = None)
            \/ (fst call = false /\ exists r, snd call = Some r))
    [(throws (getStatistics c), request_of (getStatistics c));
     (throws (getAllBots c v), request_of (getAllBots c v));
     (throws (getBot c v), request_of (getBot c v));
     (throws (getUpvotes c v), request_of (getUpvotes c v));
     (throws (hasUpvoted c v), request_of (hasUpvoted c v));
     (throws (getSelfBot c), request_of (getSelfBot c));
     (throws (postServerCount c v), request_of (postServerCount c v));
     (throws (getUser c v), request_of (getUser c v));
     (throws (getUserBots c v w), request_of (getUserBots c v w))].
Proof.
  repeat first [apply Forall_nil | apply Forall_cons]; cbn [fst snd].
  - right. split; [reflexivity | eexists; reflexivity].
  - unfold getAllBots. destruct (default_arg v (Num one)); try (left; split; reflexivity).
    destruct (num_ltb n one); [left; split; reflexivity|].
    right. split; [reflexivity | eexists; reflexivity].
  - destruct v; try (left; split; reflexivity).
    right. split; [reflexivity | eexists; reflexivity].
  - unfold getUpvotes. destruct (default_arg v (Num one)); try (left; split; reflexivity).
    right. split; [reflexivity | eexists; reflexivity].
  - destruct v; try (left; split; reflexivity).
    right. split; [reflexivity | eexists; reflexivity].
  - right. split; [reflexivity | eexists; reflexivity].
  - unfold postServerCount.
    destruct (negb (String.eqb (typeof v) "number") && negb (isArray v)).
    + left; split; reflexivity.
    + right. split; [reflexivity | eexists; reflexivity].
  - destruct v; try (left; split; reflexivity).
    right. split; [reflexivity | eexists; reflexivity].
  - unfold getUserBots. destruct v; try (left; split; reflexivity).
    destruct (default_arg w (Num one)); try (left; split; reflexivity).
    destruct (num_ltb n one); [left; split; reflexivity|].
    right. split; [reflexivity | eexists; reflexivity].
Qed.

(** X7: getAllBots issues its request exactly when the page is undefined
    or a number that is not below 1, and the request carries that page (1
    for undefined) as its [page] parameter. *)
Theorem getAllBots_sends_the_page c page :
  ((exists r, request_of (getAllBots c page) = Some r)
   <-> page = Undefined \/ exists n, page = Num n /\ num_ltb n one = false)
  /\ (forall r, request_of (getAllBots c page) = Some r ->
                r = mkRequest GET (_baseURL c ++ "/bots")
                              [("page", default_arg page (Num one))] [] None).
Proof.
  split; [split|].
  - intros [r H]. unfold getAllBots in H.
    destruct page; cbn [default_arg] in H; try discriminate H.
    + now left.
    + right. exists n. split; [reflexivity|].
      destruct (num_ltb n one); [discriminate H | reflexivity].
  - intros [-> | (n & -> & Hn)].
    + eexists. reflexivity.
    + unfold getAllBots. cbn [default_arg]. rewrite Hn. eexists. reflexivity.
  - intros r H. unfold getAllBots in H.
    destruct (default_arg page (Num one)); try discriminate H.
    destruct (num_ltb n one); try discriminate H.
    injection H as <-. reflexivity.
Qed.

(** X8: for a string id and a number that is not below 1, getUserBots
    sends the page as it is given, except NaN, for which the fallback of
    [page || '1'] sends the string ["1"]. *)
Theorem getUserBots_page_fallback c user n :
  num_ltb n one = false ->
  request_of (getUserBots c (Str user) (Num n))
  = Some (mkRequest GET (_baseURL c ++ "/users/" ++ user ++ "/bots")
                    [("page", match n with NaN => Str "1" | _ => Num n end)]
                    [] None).
Proof.
  intro Hn. unfold getUserBots. cbn [default_arg]. rewrite Hn.
  cbn [request_of then_catch issued snekfetch].
  destruct n as [|[|]|q]; try reflexivity; try discriminate Hn.
  unfold or_else. cbn [truthy].
  destruct (Qeq_bool q 0) eqn:E; [|reflexivity].
  exfalso. apply Qeq_bool_iff in E.
  assert (L : num_ltb (Finite q) one = true).
  { cbn. apply Qltb_lt. rewrite E. reflexivity. }
  congruence.
Qed.

Lemma getUserBots_page_fallback_witness :
  request_of (getUserBots bot42 (Str "7") (Num (of_nat 3)))
  = Some (mkRequest GET "https://api.botlist.space/v1/users/7/bots"
                    [("page", Num (of_nat 3))] [] None)
  /\ request_of (getUserBots bot42 (Str "7") (Num NaN))
     = Some (mkRequest GET "https://api.botlist.space/v1/users/7/bots"
                       [("page", Str "1")] [] None).
Proof.
  split.
  - apply (getUserBots_page_fallback bot42 "7" (of_nat 3)). reflexivity.
  - apply (getUserBots_page_fallback bot42 "7" NaN). reflexivity.
Defined.

(** X9: the id given to getBot and to getUser is appended to the path as
    it is: an id that holds a slash addresses another endpoint, that of
    the upvotes of a bot or of the bots of a user. *)
Theorem ids_are_appended_unescaped c user n :
  option_map url (request_of (getBot c (Str (Client.id (_options c) ++ "/upvotes"))))
  = option_map url (request_of (getUpvotes c (Num n)))
  /\ (num_ltb n one = false ->
      option_map url (request_of (getUser c (Str (user ++ "/bots"))))
      = option_map url (request_of (getUserBots c (Str user) (Num n)))).
Proof.
  split; [reflexivity|].
  intro Hn. unfold getUserBots. cbn [default_arg]. rewrite Hn. reflexivity.
Qed.

(* ================================================================= *)
(** ** How the promises settle *)

Lemma then_catch_rejects_wrapped {A B} (p : Promise A) (f : A -> M B) response e :
  settle (then_catch p f (fun error => reject (HTTPError error) [])) response
  = Some (Rejected e) ->
  exists cause, e = HTTPError cause.
Proof.
  cbn [then_catch settle].
  destruct (settle p response) as [[a|e0]|]; [destruct (f a) as [[b|e1]|]| |];
    intro H; try discriminate H; injection H as <-; eexists; reflexivity.
Qed.

(** X10: whatever the response, when the promise of an operation other
    than getStatistics is rejected, it is rejected with an HTTPError: an
    error of the transport and an error thrown while the body is wrapped
    reach the caller alike. *)
Theorem rejections_are_HTTPErrors c v w response e :
  In (Some e) [rejection (outcome (getAllBots c v) response);
               rejection (outcome (getBot c v) response);
               rejection (outcome (getUpvotes c v) response);
               rejection (outcome (hasUpvoted c v) response);
               rejection (outcome (getSelfBot c) response);
               rejection (outcome (postServerCount c v) response);
               rejection (outcome (getUser c v) response);
               rejection (outcome (getUserBots c v w) response)] ->
  exists cause, e = HTTPError cause.
Proof.
  assert (R : forall A (o : option (Settled A)),
            rejection o = Some e -> o = Some (Rejected e)).
  { intros A [[a|e']|]; cbn; intro H; try discriminate H. now injection H as ->. }
  cbn [In]. intro Hin.
  repeat match type of Hin with _ \/ _ => destruct Hin as [Hin | Hin] end;
    try contradiction; apply R in Hin.
  - unfold getAllBots in Hin. destruct (default_arg v (Num one)); try discriminate Hin.
    destruct (num_ltb n one); try discriminate Hin.
    exact (then_catch_rejects_wrapped _ _ _ _ Hin).
  - destruct v; try discriminate Hin. exact (then_catch_rejects_wrapped _ _ _ _ Hin).
  - unfold getUpvotes in Hin. destruct (default_arg v (Num one)); try discriminate Hin.
    exact (then_catch_rejects_wrapped _ _ _ _ Hin).
  - destruct v; try discriminate Hin.
    unfold hasUpvoted, getUpvotes in Hin. cbn [default_arg outcome] in Hin.
    match type of Hin with
    | settle (then_catch ?p _ _) _ = _ => remember p as upvotes eqn:Hp
    end.
    cbn [then_catch settle] in Hin.
    destruct (settle upvotes response) as [[a|e0]|] eqn:E;
      unfold ret, reject in Hin; try discriminate Hin.
    injection Hin as <-. subst upvotes.
    exact (then_catch_rejects_wrapped _ _ _ _ E).
  - exact (then_catch_rejects_wrapped _ _ _ _ Hin).
  - unfold postServerCount in Hin.
    destruct (negb (String.eqb (typeof v) "number") && negb (isArray v));
      try discriminate Hin.
    exact (then_catch_rejects_wrapped _ _ _ _ Hin).
  - destruct v; try discriminate Hin. exact (then_catch_rejects_wrapped _ _ _ _ Hin).
  - unfold getUserBots in Hin. destruct v; try discriminate Hin.
    destruct (default_arg w (Num one)); try discriminate Hin.
    destruct (num_ltb n one); try discriminate Hin.
    exact (then_catch_rejects_wrapped _ _ _ _ Hin).
Qed.

Lemma rejections_are_HTTPErrors_witness :
  exists cause, HTTPError NativeTypeError = HTTPError cause.
Proof.
  apply (rejections_are_HTTPErrors bot42 (Str "7") Undefined (Success Null)
                                   (HTTPError NativeTypeError)).
  right. left. reflexivity.
Defined.

(** *** The loop that fills a pagination *)

Lemma fill_empty {V} items (wrap : Value -> M V) ps :
  lookup items ps = Some (Arr []) ->
  fill items wrap (Obj ps) = ret (new_Pagination (Obj ps)).
Proof.
  intro Hl. unfold fill, fill_within. cbn [for_loop get_prop bind ret].
  unfold field at 1. rewrite Hl. rewrite Arr_length.
  cbn [bind ret lt_index]. rewrite num_ltb_of_nat. reflexivity.
Qed.

Lemma fill_without_items {V} items (wrap : Value -> M V) body :
  is_defined (peek body items) = false ->
  fill items wrap body = throw NativeTypeError.
Proof.
  unfold fill, fill_within, peek.
  destruct body as [| |b|n|s|l|ps]; cbn [for_loop get_prop bind ret size];
    try reflexivity.
  - destruct (String.eqb items "length"); cbn; [discriminate | reflexivity].
  - destruct (String.eqb items "length"); cbn; [discriminate | reflexivity].
  - destruct (field ps items); cbn; try discriminate; reflexivity.
Qed.

(** X11: on a body that lists its bots under [bots] and holds no property
    named ["0"], getAllBots and getUserBots resolve for the empty list
    only, to an empty pagination built on the body; as soon as a bot is
    listed they reject. *)
Theorem listing_resolves_when_empty_only c user n ps l :
  num_ltb n one = false ->
  lookup "bots" ps = Some (Arr l) ->
  lookup "0" ps = None ->
  outcome (getAllBots c (Num n)) (Success (Obj ps))
  = Some (match l with
          | [] => Resolved (mkPagination (Obj ps) Collection.empty)
          | _ :: _ => Rejected (HTTPError NativeTypeError)
          end)
  /\ outcome (getUserBots c (Str user) (Num n)) (Success (Obj ps))
     = Some (match l with
             | [] => Resolved (mkPagination (Obj ps) Collection.empty)
             | _ :: _ => Rejected (HTTPError NativeTypeError)
             end).
Proof.
  intros Hn Hl H0.
  unfold getAllBots, getUserBots. cbn [default_arg]. rewrite Hn.
  cbn [outcome then_catch settle snekfetch].
  destruct l as [|x xs].
  - rewrite (fill_empty "bots" new_Bot ps Hl). split; reflexivity.
  - rewrite (fill_throws_without_index "bots" new_Bot ps x xs Hl H0).
    split; reflexivity.
Qed.

Lemma listing_resolves_when_empty_only_witness :
  outcome (getAllBots bot42 (Num one)) (Success (Obj [("bots", Arr [])]))
  = Some (Resolved (mkPagination (Obj [("bots", Arr [])]) Collection.empty))
  /\ outcome (getAllBots bot42 (Num one)) (Success listing_ab)
     = Some (Rejected (HTTPError NativeTypeError)).
Proof.
  split.
  - apply (listing_resolves_when_empty_only bot42 "7" one [("bots", Arr [])] []);
      reflexivity.
  - apply (listing_resolves_when_empty_only bot42 "7" one
             [("bots", Arr [raw_bot "a"; raw_bot "b"])] [raw_bot "a"; raw_bot "b"]);
      reflexivity.
Defined.

(** X12: on a body that lists the upvotes under [upvotes] and holds no
    property named ["0"], hasUpvoted never resolves to true: it resolves
    to false when no upvote is listed and rejects as soon as one is. *)
Theorem hasUpvoted_is_never_true_on_a_listing c user ps l :
  lookup "upvotes" ps = Some (Arr l) ->
  lookup "0" ps = None ->
  outcome (hasUpvoted c (Str user)) (Success (Obj ps))
  = Some (match l with
          | [] => Resolved false
          | _ :: _ => Rejected (HTTPError NativeTypeError)
          end).
Proof.
  intros Hl H0.
  cbn [hasUpvoted getUpvotes default_arg outcome then_catch settle snekfetch issued].
  destruct l as [|x xs].
  - rewrite (fill_empty "upvotes" new_Upvote ps Hl). reflexivity.
  - rewrite (fill_throws_without_index "upvotes" new_Upvote ps x xs Hl H0).
    reflexivity.
Qed.

Lemma hasUpvoted_is_never_true_on_a_listing_witness :
  outcome (hasUpvoted bot42 (Str "7")) (Success (upvotes_body [raw_upvote "7"]))
  = Some (Rejected (HTTPError NativeTypeError))
  /\ outcome (hasUpvoted bot42 (Str "7")) (Success (upvotes_body []))
     = Some (Resolved false).
Proof.
  split.
  - apply (hasUpvoted_is_never_true_on_a_listing
             bot42 "7" [("upvotes", Arr [raw_upvote "7"])] [raw_upvote "7"]);
      reflexivity.
  - apply (hasUpvoted_is_never_true_on_a_listing bot42 "7" [("upvotes", Arr [])] []);
      reflexivity.
Defined.

(** X13: a successful response whose body does not hold the list (it has
    no [bots], or no [upvotes], or is not an object at all) makes the
    promise reject with the TypeError of reading the length, wrapped. *)
Theorem body_without_list_is_rejected c user n body :
  num_ltb n one = false ->
  (is_defined (peek body "bots") = false ->
   outcome (getAllBots c (Num n)) (Success body)
   = Some (Rejected (HTTPError NativeTypeError))
   /\ outcome (getUserBots c (Str user) (Num n)) (Success body)
      = Some (Rejected (HTTPError NativeTypeError)))
  /\ (is_defined (peek body "upvotes") = false ->
      outcome (getUpvotes c (Num n)) (Success body)
      = Some (Rejected (HTTPError NativeTypeError))
      /\ outcome (hasUpvoted c (Str user)) (Success body)
         = Some (Rejected (HTTPError NativeTypeError))).
Proof.
  intro Hn. split; intro Hd.
  - unfold getAllBots, getUserBots. cbn [default_arg]. rewrite Hn.
    cbn [outcome then_catch settle snekfetch].
    rewrite (fill_without_items "bots" new_Bot body Hd). split; reflexivity.
  - cbn [hasUpvoted getUpvotes default_arg outcome then_catch settle snekfetch issued].
    rewrite (fill_without_items "upvotes" new_Upvote body Hd). split; reflexivity.
Qed.

Lemma body_without_list_is_rejected_witness :
  outcome (getAllBots bot42 (Num one)) (Success (Obj [("error", Str "nope")]))
  = Some (Rejected (HTTPError NativeTypeError))
  /\ outcome (hasUpvoted bot42 (Str "7")) (Success Null)
     = Some (Rejected (HTTPError NativeTypeError)).
Proof.
  split.
  - apply (body_without_list_is_rejected bot42 "7" one (Obj [("error", Str "nope")]));
      reflexivity.
  - apply (body_without_list_is_rejected bot42 "7" one Null); reflexivity.
Defined.

Lemma Forall2_nth_error_l {A B} (P : A -> B -> Prop) xs ws :
  Forall2 P xs ws ->
  forall i x, nth_error xs i = Some x ->
  exists w, nth_error ws i = Some w /\ P x w.
Proof.
  induction 1 as [|x0 w0 xs ws H0 _ IH]; intros [|i] x E; cbn in *; try discriminate.
  - injection E as <-. eauto.
  - now apply IH.
Qed.

(** X14: the filling loop takes the items from the list and their keys
    from the body itself.  On a body that lists [xs] under [items], holds
    a property for each index of [xs], and whose items are all wrapped,
    the pagination holds the wrapped items in order, the one of index [i]
    under the id of the property named [i] of the body. *)
Theorem fill_keys_come_from_the_body {V} items (wrap : Value -> M V) ps xs ws :
  lookup items ps = Some (Arr xs) ->
  Forall2 (fun x w => wrap x = ret w) xs ws ->
  (forall i, i < List.length xs -> is_defined (field ps (index_name i)) = true) ->
  fill items wrap (Obj ps)
  = ret (mkPagination (Obj ps)
           (fold_left (fun acc iw => Collection.set (envelope_key ps (fst iw)) (snd iw) acc)
                      (combine (seq 0 (List.length xs)) ws) Collection.empty)).
Proof.
  intros Hl Hw Hk.
  rewrite <- (fill_fuel items wrap (Obj ps) (S (List.length ps + List.length xs)))
    by (cbn [size]; lia).
  unfold fill_within.
  assert (Hp : get_prop (Obj ps) items = ret (Arr xs)).
  { cbn. unfold field. now rewrite Hl. }
  match goal with |- for_loop _ ?c ?b _ _ = _ => set (cond := c); set (body := b) end.
  assert (Hc : forall i, cond i = ret (i <? List.length xs)).
  { intro i. unfold cond. rewrite Hp. cbn [bind ret]. rewrite Arr_length.
    cbn [bind ret lt_index]. now rewrite num_ltb_of_nat. }
  assert (Hb : forall i x w p, nth_error xs i = Some x -> nth_error ws i = Some w ->
                 wrap x = ret w ->
                 body i p = ret (Pagination_set (envelope_key ps i) w p)).
  { intros i x w p Ex Ew Hx. unfold body. cbn [get_index bind ret].
    assert (Hi : i < List.length xs) by (apply nth_error_Some; congruence).
    rewrite (get_prop_defined _ "id" (Hk i Hi)). cbn [bind ret].
    rewrite Hp. cbn [bind ret get_index]. rewrite Ex. cbn [bind ret].
    rewrite Hx. reflexivity. }
  clearbody cond body.
  pose (step := fun (p : Pagination V) (iw : nat * V) =>
                  Pagination_set (envelope_key ps (fst iw)) (snd iw) p).
  assert (G : forall fuel i p, i <= List.length xs -> List.length xs - i < fuel ->
     for_loop fuel cond body i p
     = ret (fold_left step (combine (seq i (List.length xs - i)) (skipn i ws)) p)).
  { induction fuel as [|fuel IH]; intros i p Hi Hf; [lia|].
    cbn [for_loop]. rewrite Hc. cbn [bind ret].
    destruct (Nat.ltb_spec i (List.length xs)) as [L|L].
    - destruct (nth_error xs i) as [x|] eqn:Ex.
      2:{ apply nth_error_None in Ex. lia. }
      destruct (Forall2_nth_error_l _ xs ws Hw i x Ex) as (w & Ew & Hx).
      rewrite (Hb i x w p Ex Ew Hx). cbn [bind ret].
      rewrite IH by lia.
      rewrite (skipn_nth_error ws i w Ew).
      replace (List.length xs - i) with (S (List.length xs - S i)) by lia.
      reflexivity.
    - replace (List.length xs - i) with 0 by lia. reflexivity. }
  rewrite G by lia. rewrite Nat.sub_0_r. cbn [skipn].
  assert (F : forall l acc,
            fold_left step l (mkPagination (Obj ps) acc)
            = mkPagination (Obj ps)
                (fold_left (fun acc iw =>
                              Collection.set (envelope_key ps (fst iw)) (snd iw) acc)
                           l acc)).
  { induction l as [|iw l IH]; intro acc; [reflexivity|]. cbn [fold_left].
    unfold step at 2. unfold Pagination_set. cbn [envelope entries]. apply IH. }
  unfold new_Pagination. now rewrite F.
Qed.

Lemma fill_keys_come_from_the_body_witness :
  fill "bots" new_Bot listing_with_index
  = ret (mkPagination listing_with_index
           [(Str "zzz", Bot_of_fields [("id", Str "a"); ("owners", Arr [])] [])]).
Proof.
  apply (fill_keys_come_from_the_body "bots" new_Bot
           [("bots", Arr [raw_bot "a"]); ("0", Obj [("id", Str "zzz")])]
           [raw_bot "a"] [Bot_of_fields [("id", Str "a"); ("owners", Arr [])] []]).
  - reflexivity.
  - constructor; [reflexivity | constructor].
  - intros [|i] H; [reflexivity | cbn in H; lia].
Defined.

(* ================================================================= *)
(** ** More on the Bot *)

(** The constructor builds a Bot from an object with owners, and throws
    on everything else. *)
Lemma new_Bot_cases v :
  (exists ps, v = Obj ps /\ is_defined (field ps "owners") = true)
  \/ new_Bot v = throw NativeTypeError.
Proof.
  destruct v as [| |b|n|s|l|ps]; try (right; reflexivity).
  destruct (is_defined (field ps "owners")) eqn:D.
  - left. eauto.
  - right. unfold new_Bot. cbn [get_prop bind ret].
    unfold Bot_owners, Bot_owners_within, peek. cbn [get_prop ret].
    destruct (field ps "owners"); try discriminate D; reflexivity.
Qed.

(** What the constructor returns holds the fields of the raw object. *)
Lemma new_Bot_ret ps b :
  new_Bot (Obj ps) = ret b -> b = Bot_of_fields ps (owners b).
Proof.
  unfold new_Bot. cbn [get_prop bind ret].
  destruct (Bot_owners (Obj ps)) as [[o|e]|]; cbn [bind]; try discriminate.
  unfold ret. intro H. injection H as <-. reflexivity.
Qed.

(** The loop of the constructor over an array of owners: it throws at the
    first entry that is null or undefined. *)
Lemma Bot_owners_array_any ps os :
  lookup "owners" ps = Some (Arr os) ->
  Bot_owners (Obj ps)
  = if forallb is_defined os
    then ret (fold_left add_owner os Collection.empty)
    else throw NativeTypeError.
Proof.
  intros Hl. unfold Bot_owners, Bot_owners_within.
  assert (Hp : get_prop (Obj ps) "owners" = ret (Arr os)).
  { cbn. unfold field. now rewrite Hl. }
  assert (Hk : peek (Obj ps) "owners" = Arr os).
  { unfold peek. now rewrite Hp. }
  rewrite Hk. cbn [size].
  match goal with |- for_loop _ ?c ?b _ _ = _ => set (cond := c); set (body := b) end.
  assert (Hc : forall i, cond i = ret (i <? List.length os)).
  { intro i. unfold cond. rewrite Hp. cbn [bind ret]. rewrite Arr_length.
    cbn [bind ret lt_index]. now rewrite num_ltb_of_nat. }
  assert (Hb : forall i o acc, nth_error os i = Some o ->
                 body i acc = if is_defined o then ret (add_owner acc o)
                              else throw NativeTypeError).
  { intros i o acc E. unfold body. rewrite Hp. cbn [bind ret get_index].
    rewrite E. cbn [bind ret].
    destruct (is_defined o) eqn:Do.
    - rewrite (get_prop_defined o "id" Do), (new_User_defined o Do). reflexivity.
    - destruct o; try discriminate Do; reflexivity. }
  clearbody cond body.
  change os with (skipn 0 os) at 2 3.
  generalize (@Collection.empty User) as acc.
  assert (G : forall fuel i acc, i <= List.length os -> List.length os - i < fuel ->
     for_loop fuel cond body i acc
     = if forallb is_defined (skipn i os)
       then ret (fold_left add_owner (skipn i os) acc)
       else throw NativeTypeError).
  { induction fuel as [|fuel IH]; intros i acc Hi Hf; [lia|].
    cbn [for_loop]. rewrite Hc. cbn [bind ret].
    destruct (Nat.ltb_spec i (List.length os)) as [L|L].
    - destruct (nth_error os i) as [o|] eqn:E.
      2:{ apply nth_error_None in E. lia. }
      rewrite (Hb i o acc E), (skipn_nth_error os i o E). cbn [forallb fold_left].
      destruct (is_defined o); cbn [bind ret throw andb]; [|reflexivity].
      apply IH; lia.
    - assert (i = List.length os) by lia. subst i. rewrite skipn_all. reflexivity. }
  intro acc. apply G; lia.
Qed.



(** X16: when [owners] is an array, the constructor throws exactly when
    one of its entries is null (or undefined): a single null owner loses
    the whole bot. *)
Theorem new_Bot_throws_on_a_null_owner ps os :
  lookup "owners" ps = Some (Arr os) ->
  (new_Bot (Obj ps) = throw NativeTypeError <-> forallb is_defined os = false)
  /\ ((exists b, new_Bot (Obj ps) = ret b) <-> forallb is_defined os = true).
Proof.
  intro Hl. pose proof (Bot_owners_array_any ps os Hl) as Ho.
  destruct (forallb is_defined os).
  - rewrite (new_Bot_Obj ps _ Ho). split; split; try discriminate; eauto.
  - assert (E : new_Bot (Obj ps) = throw NativeTypeError).
    { unfold new_Bot. cbn [get_prop bind ret]. rewrite Ho. reflexivity. }
    rewrite E. split; split; try discriminate; auto.
    intros [b Hb]. discriminate Hb.
Qed.

Lemma new_Bot_throws_on_a_null_owner_witness :
  new_Bot (Obj [("id", Str "a"); ("owners", Arr [raw_upvote "u1"; Null])])
  = throw NativeTypeError.
Proof.
  apply (new_Bot_throws_on_a_null_owner
           [("id", Str "a"); ("owners", Arr [raw_upvote "u1"; Null])]
           [raw_upvote "u1"; Null] eq_refl).
  reflexivity.
Defined.

(** X17: the accessors of a Bot give back the fields of the raw object it
    was built from, each under the name the wire has for it. *)
Theorem Bot_accessors_read_the_wire_fields ps b :
  new_Bot (Obj ps) = ret b ->
  getID b = field ps "id"
  /\ getUsername b = field ps "username"
  /\ getDiscriminator b = field ps "discriminator"
  /\ getShortDescription b = field ps "short_description"
  /\ getFullDescription b = field ps "full_description"
  /\ getAvatarURL b = field ps "avatar"
  /\ getInvite b = field ps "invite"
  /\ getPrefix b = field ps "prefix"
  /\ getVanity b = field ps "vanity"
  /\ getLinks b = field ps "links"
  /\ getCreatedAt b = new_Date (field ps "created_at")
  /\ getUpdatedAt b = new_Date (field ps "updated_at").
Proof.
  intro H. rewrite (new_Bot_ret ps b H).
  repeat (split; [reflexivity|]). reflexivity.
Qed.

Lemma Bot_accessors_read_the_wire_fields_witness :
  getShortDescription
    (Bot_of_fields [("short_description", Str "hi"); ("owners", Arr [])] [])
  = Str "hi".
Proof.
  destruct (Bot_accessors_read_the_wire_fields
              [("short_description", Str "hi"); ("owners", Arr [])]
              (Bot_of_fields [("short_description", Str "hi"); ("owners", Arr [])] [])
              eq_refl) as (_ & _ & _ & H & _).
  exact H.
Defined.

(** X18: a Bot is not safe for work unless the raw object says that its
    avatar is child friendly: isNSFW is the negation of that flag, and it
    is true when the flag is missing. *)
Theorem isNSFW_unless_flagged ps b :
  new_Bot (Obj ps) = ret b ->
  isNSFW b = negb (truthy (field ps "avatarChildFriendly"))
  /\ (lookup "avatarChildFriendly" ps = None -> isNSFW b = true).
Proof.
  intro H. rewrite (new_Bot_ret ps b H). split; [reflexivity|].
  intro Hm. unfold isNSFW, Bot_of_fields. cbn [avatarChildFriendly].
  now rewrite (field_missing ps _ Hm).
Qed.

Lemma isNSFW_unless_flagged_witness :
  isNSFW (Bot_of_fields [("id", Str "a"); ("owners", Arr [])] []) = true.
Proof.
  destruct (isNSFW_unless_flagged [("id", Str "a"); ("owners", Arr [])]
              (Bot_of_fields [("id", Str "a"); ("owners", Arr [])] []) eq_refl)
    as [_ H].
  apply H. reflexivity.
Defined.

(** *** The owners of a Bot *)

Lemma set_appends {V} k (v : V) c :
  forallb (fun k' => negb (same_key k' k)) (Collection.keyArray c) = true ->
  Collection.set k v c = c ++ [(k, v)].
Proof.
  induction c as [|[k' v'] c IH]; cbn [Collection.set Collection.keyArray map fst forallb app];
    [reflexivity|].
  rewrite andb_true_iff, negb_true_iff. intros [-> H].
  f_equal. now apply IH.
Qed.

Lemma distinct_keys_middle l1 k l2 :
  distinct_keys (l1 ++ k :: l2) = true ->
  forallb (fun k' => negb (same_key k' k)) l1 = true.
Proof.
  induction l1 as [|a l1 IH]; cbn [app distinct_keys forallb]; [reflexivity|].
  rewrite !andb_true_iff, forallb_app. cbn [forallb].
  rewrite !andb_true_iff. intros [(_ & Ha & _) H]. split; [exact Ha | now apply IH].
Qed.

Lemma fold_add_owner_distinct os : forall acc,
  distinct_keys (Collection.keyArray acc ++ map (fun o => peek o "id") os) = true ->
  fold_left add_owner os acc = acc ++ map owner_entry os.
Proof.
  induction os as [|o os IH]; intros acc H; cbn [fold_left map].
  - now rewrite app_nil_r.
  - cbn [map] in H. unfold add_owner at 2.
    rewrite (set_appends _ _ _ (distinct_keys_middle _ _ _ H)).
    rewrite IH.
    + now rewrite <- app_assoc.
    + unfold Collection.keyArray in *. rewrite map_app, <- app_assoc. exact H.
Qed.

(** X19: from a raw object whose [owners] array holds no null and no two
    entries with the same id, the Bot has one owner for each entry, in the
    order of the array, each the wrapper of its raw owner under its id. *)
Theorem new_Bot_owners_in_order ps os :
  lookup "owners" ps = Some (Arr os) ->
  forallb is_defined os = true ->
  distinct_keys (map (fun o => peek o "id") os) = true ->
  exists b,
    new_Bot (Obj ps) = ret b
    /\ getOwners b = map owner_entry os
    /\ Collection.size (getOwners b) = List.length os
    /\ Collection.array (getOwners b) = map mkUser os.
Proof.
  intros Hl Hd Hk.
  exists (Bot_of_fields ps (map owner_entry os)).
  split.
  - apply new_Bot_Obj. rewrite (Bot_owners_array ps os Hl Hd).
    now rewrite (fold_add_owner_distinct os Collection.empty Hk).
  - cbn [getOwners Bot_of_fields owners]. split; [reflexivity|]. split.
    + unfold Collection.size. now rewrite length_map.
    + unfold Collection.array. rewrite map_map. reflexivity.
Qed.

Lemma new_Bot_owners_in_order_witness :
  exists b,
    new_Bot (Obj [("owners", Arr [raw_upvote "u1"; raw_upvote "u2"; raw_upvote "u3"])])
    = ret b
    /\ Collection.keyArray (getOwners b) = [Str "u1"; Str "u2"; Str "u3"].
Proof.
  destruct (new_Bot_owners_in_order
              [("owners", Arr [raw_upvote "u1"; raw_upvote "u2"; raw_upvote "u3"])]
              [raw_upvote "u1"; raw_upvote "u2"; raw_upvote "u3"]
              eq_refl eq_refl eq_refl) as (b & Hb & Ho & _).
  exists b. split; [exact Hb|]. rewrite Ho. reflexivity.
Defined.

Lemma same_key_Str_l k s : same_key (Str s) k = same_key k (Str s).
Proof. destruct k; cbn; try reflexivity. apply String.eqb_sym. Qed.

Lemma get_set_Str {V} s k (v : V) c :
  Collection.get (Str s) (Collection.set k v c)
  = if same_key k (Str s) then Some v else Collection.get (Str s) c.
Proof.
  induction c as [|[k' v'] c IH]; cbn [Collection.set Collection.get].
  - reflexivity.
  - destruct (same_key k' k) eqn:Ekk; cbn [Collection.get].
    + destruct (same_key k (Str s)) eqn:Ek.
      * apply same_key_Str in Ek. subst k. now rewrite Ekk.
      * destruct (same_key k' (Str s)) eqn:Ek'; [|reflexivity].
        apply same_key_Str in Ek'. subst k'.
        rewrite same_key_Str_l in Ekk. congruence.
    + rewrite IH.
      destruct (same_key k' (Str s)) eqn:Ek'; [|reflexivity].
      destruct (same_key k (Str s)) eqn:Ek; [|reflexivity].
      apply same_key_Str in Ek, Ek'. subst k k'.
      cbn in Ekk. rewrite String.eqb_refl in Ekk. discriminate Ekk.
Qed.

(** X20: looked up by a string id, the owners of a Bot give the wrapper
    of the last raw owner of the array that has this id, and nothing when
    no raw owner has it: of two owners with the same id, the later one is
    kept. *)
Theorem getOwners_keeps_the_last_owner_of_an_id ps os b s :
  lookup "owners" ps = Some (Arr os) ->
  forallb is_defined os = true ->
  new_Bot (Obj ps) = ret b ->
  Collection.get (Str s) (getOwners b)
  = option_map mkUser (find (fun o => same_key (peek o "id") (Str s)) (rev os)).
Proof.
  intros Hl Hd Hb.
  assert (Ho : getOwners b = fold_left add_owner os Collection.empty).
  { rewrite (new_Bot_Obj ps _ (Bot_owners_array ps os Hl Hd)) in Hb.
    unfold ret in Hb. injection Hb as <-. reflexivity. }
  rewrite Ho. clear.
  induction os as [|o os IH] using rev_ind; [reflexivity|].
  rewrite fold_left_app, rev_app_distr. cbn [fold_left rev app find].
  unfold add_owner at 1. rewrite get_set_Str.
  destruct (same_key (peek o "id") (Str s)); [reflexivity | exact IH].
Qed.

Lemma getOwners_keeps_the_last_owner_of_an_id_witness :
  Collection.get (Str "u")
    (getOwners
       (Bot_of_fields
          [("owners", Arr [Obj [("id", Str "u"); ("username", Str "old")];
                           Obj [("id", Str "u"); ("username", Str "new")]])]
          [(Str "u", mkUser (Obj [("id", Str "u"); ("username", Str "new")]))]))
  = Some (mkUser (Obj [("id", Str "u"); ("username", Str "new")])).
Proof.
  apply (getOwners_keeps_the_last_owner_of_an_id
           [("owners", Arr [Obj [("id", Str "u"); ("username", Str "old")];
                            Obj [("id", Str "u"); ("username", Str "new")]])]
           [Obj [("id", Str "u"); ("username", Str "old")];
            Obj [("id", Str "u"); ("username", Str "new")]]
           _ "u" eq_refl eq_refl eq_refl).
Defined.

(** *** Texts and dates of a Bot *)






(** X23: getBot and getSelfBot resolve only for a body that is an object
    with owners: a successful response with any other body is rejected
    with the TypeError of the Bot constructor, wrapped in an HTTPError. *)
Theorem getBot_rejects_a_body_without_owners c the_id body :
  (forall ps, body = Obj ps -> is_defined (field ps "owners") = false) ->
  outcome (getBot c (Str the_id)) (Success body)
  = Some (Rejected (HTTPError NativeTypeError))
  /\ outcome (getSelfBot c) (Success body)
     = Some (Rejected (HTTPError NativeTypeError)).
Proof.
  intro Hb.
  assert (E : new_Bot body = throw NativeTypeError).
  { destruct (new_Bot_cases body) as [(ps & -> & D) | E]; [|exact E].
    rewrite (Hb ps eq_refl) in D. discriminate D. }
  unfold getSelfBot. cbn [getBot outcome then_catch settle snekfetch].
  rewrite E. split; reflexivity.
Qed.

Lemma getBot_rejects_a_body_without_owners_witness :
  outcome (getBot bot42 (Str "7")) (Success (Obj [("id", Str "7")]))
  = Some (Rejected (HTTPError NativeTypeError)).
Proof.
  apply (getBot_rejects_a_body_without_owners bot42 "7" (Obj [("id", Str "7")])).
  intros ps E. injection E as <-. reflexivity.
Defined.
